(** * fpsensor.api: enumerated codes and the system parameters block

    A shallow embedding of [src/fpsensor/api.py]: the integer enumerations
    ([FpError], [FpBaudrate], [FpSecurity], [FpPacketSize]) with their
    conversions, the byte utilities [to_bytes] / [from_bytes], and
    [FpSystemParameters] with [serialize] / [deserialize].

    Python integers are [Z]; a [bytearray] is a [list byte]; a call that may
    raise returns a [result], whose [Raise] carries the Python exception. *)

From Stdlib Require Import ZArith List Bool Lia.
From Stdlib Require Import Strings.Byte.
Import ListNotations.
Open Scope Z_scope.

(** ** Exceptions and the error monad *)

(** Messages of the [ValueError]s the module can raise. *)
Inductive ValueErrorMsg : Type :=
| not_supported_by_sensor (value : Z)     (* "Value {value} is not supported by the sensor." *)
| not_compatible_packet_size (value : Z)  (* "Value {value} is not a compatible packet size." *)
| not_a_valid_member (value : Z)          (* enum call on a value without member *)
| math_domain_error.                      (* math.log2 outside its domain *)

(** Messages of the [OverflowError]s of [int.to_bytes]. *)
Inductive OverflowErrorMsg : Type :=
| int_too_big_to_convert
| cant_convert_negative_int.

Inductive PyExc : Type :=
| ValueError (msg : ValueErrorMsg)
| OverflowError (msg : OverflowErrorMsg).

Inductive result (A : Type) : Type :=
| Ok (a : A)
| Raise (e : PyExc).

Arguments Ok {A} a.
Arguments Raise {A} e.

Definition bind {A B : Type} (r : result A) (k : A -> result B) : result B :=
  match r with
  | Ok a => k a
  | Raise e => Raise e
  end.

Declare Scope py_scope.
Delimit Scope py_scope with py.
Notation "x <- r ;; k" := (bind r (fun x => k))
  (at level 61, r at next level, right associativity) : py_scope.
Open Scope py_scope.

Definition raises {A : Type} (r : result A) : Prop :=
  exists e, r = Raise e.

(** ** Integer enumerations (embutils' [IntEnumMod])

    A class body is a list of names, each bound to an integer.  Python keeps
    as members the first name of every value; a later name bound to a value
    already taken is an alias of that member.  [has_value] is the library's
    membership test of an integer among the member values, and [enum_call]
    is the class call [cls(value)]. *)

Class IntEnumMod (E : Type) : Type := {
  names : list E;
  value : E -> Z
}.

Section IntEnum.
Context {E : Type} `{IntEnumMod E}.

Fixpoint canonical (seen : list Z) (l : list E) : list E :=
  match l with
  | [] => []
  | n :: l' =>
      if existsb (Z.eqb (value n)) seen then canonical seen l'
      else n :: canonical (value n :: seen) l'
  end.

Definition members : list E := canonical [] names.

Definition by_value (v : Z) : option E :=
  find (fun m => value m =? v) members.

Definition has_value (v : Z) : bool :=
  existsb (fun m => value m =? v) members.

Definition enum_call (v : Z) : result E :=
  match by_value v with
  | Some m => Ok m
  | None => Raise (ValueError (not_a_valid_member v))
  end.

End IntEnum.

(** Fingerprint error IDs. *)
Inductive FpError : Type :=
| SUCCESS
| HANDSHAKE_SUCCESS
| ERROR_INVALID_REGISTER
| ERROR_INVALID_CONFIGURATION
| ERROR_NOTEPAD_INVALID_PAGE
| ERROR_PACKET_TRANSMISSION
| ERROR_PACKET_RECEPTION
| ERROR_PACKET_FAULTY
| ERROR_FINGER_NOT_IN_SENSOR
| ERROR_FINGER_ENROLL_FAILED
| ERROR_FINGER_MISMATCH
| ERROR_FINGER_NOT_FOUND
| ERROR_IMAGE_MESSY
| ERROR_IMAGE_INVALID
| ERROR_IMAGE_FEW_FEATURE_POINTS
| ERROR_IMAGE_DOWNLOAD
| ERROR_CHARACTERISTICS_MISMATCH
| ERROR_TEMPLATE_INVALID_INDEX
| ERROR_TEMPLATE_LOAD
| ERROR_TEMPLATE_UPLOAD
| ERROR_TEMPLATE_DOWNLOAD
| ERROR_TEMPLATE_DELETE
| ERROR_TEMPLATE_EMPTY
| ERROR_FLASH
| ERROR_DATABASE_FULL
| ERROR_TIMEOUT
| ERROR_UNDEFINED
| ERROR_COMMUNICATION_PORT
| ERROR_ADDRESS
| ERROR_PASSWORD
| ERROR_PASSWORD_VERIFY.

Definition FpError_value (e : FpError) : Z :=
  match e with
  | SUCCESS => 0x00
  | HANDSHAKE_SUCCESS => 0x55
  | ERROR_INVALID_REGISTER => 0x1A
  | ERROR_INVALID_CONFIGURATION => 0x1B
  | ERROR_NOTEPAD_INVALID_PAGE => 0x1C
  | ERROR_PACKET_TRANSMISSION => 0x01
  | ERROR_PACKET_RECEPTION => 0x0E
  | ERROR_PACKET_FAULTY => 0xFE
  | ERROR_FINGER_NOT_IN_SENSOR => 0x02
  | ERROR_FINGER_ENROLL_FAILED => 0x03
  | ERROR_FINGER_MISMATCH => 0x08
  | ERROR_FINGER_NOT_FOUND => 0x09
  | ERROR_IMAGE_MESSY => 0x06
  | ERROR_IMAGE_INVALID => 0x15
  | ERROR_IMAGE_FEW_FEATURE_POINTS => 0x07
  | ERROR_IMAGE_DOWNLOAD => 0x0F
  | ERROR_CHARACTERISTICS_MISMATCH => 0x0A
  | ERROR_TEMPLATE_INVALID_INDEX => 0x0B
  | ERROR_TEMPLATE_LOAD => 0x0C
  | ERROR_TEMPLATE_UPLOAD => 0xFD
  | ERROR_TEMPLATE_DOWNLOAD => 0x0D
  | ERROR_TEMPLATE_DELETE => 0x10
  | ERROR_TEMPLATE_EMPTY => 0x11
  | ERROR_FLASH => 0x18
  | ERROR_DATABASE_FULL => 0xFE
  | ERROR_TIMEOUT => 0xFF
  | ERROR_UNDEFINED => 0x19
  | ERROR_COMMUNICATION_PORT => 0x1D
  | ERROR_ADDRESS => 0x20
  | ERROR_PASSWORD => 0x13
  | ERROR_PASSWORD_VERIFY => 0x21
  end.

Definition FpError_names : list FpError :=
  [ SUCCESS; HANDSHAKE_SUCCESS;
    ERROR_INVALID_REGISTER; ERROR_INVALID_CONFIGURATION;
    ERROR_NOTEPAD_INVALID_PAGE;
    ERROR_PACKET_TRANSMISSION; ERROR_PACKET_RECEPTION; ERROR_PACKET_FAULTY;
    ERROR_FINGER_NOT_IN_SENSOR; ERROR_FINGER_ENROLL_FAILED;
    ERROR_FINGER_MISMATCH; ERROR_FINGER_NOT_FOUND;
    ERROR_IMAGE_MESSY; ERROR_IMAGE_INVALID; ERROR_IMAGE_FEW_FEATURE_POINTS;
    ERROR_IMAGE_DOWNLOAD;
    ERROR_CHARACTERISTICS_MISMATCH;
    ERROR_TEMPLATE_INVALID_INDEX; ERROR_TEMPLATE_LOAD; ERROR_TEMPLATE_UPLOAD;
    ERROR_TEMPLATE_DOWNLOAD; ERROR_TEMPLATE_DELETE; ERROR_TEMPLATE_EMPTY;
    ERROR_FLASH; ERROR_DATABASE_FULL; ERROR_TIMEOUT; ERROR_UNDEFINED;
    ERROR_COMMUNICATION_PORT;
    ERROR_ADDRESS; ERROR_PASSWORD; ERROR_PASSWORD_VERIFY ].

#[export] Instance FpError_enum : IntEnumMod FpError :=
  {| names := FpError_names; value := FpError_value |}.

(** Fingerprint compatible baudrate. *)
Inductive FpBaudrate : Type :=
| BAUDRATE_9600
| BAUDRATE_19200
| BAUDRATE_28800
| BAUDRATE_34800
| BAUDRATE_48000
| BAUDRATE_57600
| BAUDRATE_67200
| BAUDRATE_76800
| BAUDRATE_86400
| BAUDRATE_96000
| BAUDRATE_105600
| BAUDRATE_115200.

Definition FpBaudrate_value (b : FpBaudrate) : Z :=
  match b with
  | BAUDRATE_9600 => 0x01
  | BAUDRATE_19200 => 0x02
  | BAUDRATE_28800 => 0x03
  | BAUDRATE_34800 => 0x04
  | BAUDRATE_48000 => 0x05
  | BAUDRATE_57600 => 0x06
  | BAUDRATE_67200 => 0x07
  | BAUDRATE_76800 => 0x08
  | BAUDRATE_86400 => 0x09
  | BAUDRATE_96000 => 0x0A
  | BAUDRATE_105600 => 0x0B
  | BAUDRATE_115200 => 0x0C
  end.

#[export] Instance FpBaudrate_enum : IntEnumMod FpBaudrate :=
  {| names := [ BAUDRATE_9600; BAUDRATE_19200; BAUDRATE_28800; BAUDRATE_34800;
                BAUDRATE_48000; BAUDRATE_57600; BAUDRATE_67200; BAUDRATE_76800;
                BAUDRATE_86400; BAUDRATE_96000; BAUDRATE_105600; BAUDRATE_115200 ];
     value := FpBaudrate_value |}.

(** Fingerprint security levels. *)
Inductive FpSecurity : Type :=
| SECURITY_LVL1
| SECURITY_LVL2
| SECURITY_LVL3
| SECURITY_LVL4
| SECURITY_LVL5.

Definition FpSecurity_value (s : FpSecurity) : Z :=
  match s with
  | SECURITY_LVL1 => 0x01
  | SECURITY_LVL2 => 0x02
  | SECURITY_LVL3 => 0x03
  | SECURITY_LVL4 => 0x04
  | SECURITY_LVL5 => 0x05
  end.

#[export] Instance FpSecurity_enum : IntEnumMod FpSecurity :=
  {| names := [ SECURITY_LVL1; SECURITY_LVL2; SECURITY_LVL3; SECURITY_LVL4;
                SECURITY_LVL5 ];
     value := FpSecurity_value |}.

(** Fingerprint packet sizes. *)
Inductive FpPacketSize : Type :=
| PACKET_SIZE_32
| PACKET_SIZE_64
| PACKET_SIZE_128
| PACKET_SIZE_256.

Definition FpPacketSize_value (s : FpPacketSize) : Z :=
  match s with
  | PACKET_SIZE_32 => 0x00
  | PACKET_SIZE_64 => 0x01
  | PACKET_SIZE_128 => 0x02
  | PACKET_SIZE_256 => 0x03
  end.

#[export] Instance FpPacketSize_enum : IntEnumMod FpPacketSize :=
  {| names := [ PACKET_SIZE_32; PACKET_SIZE_64; PACKET_SIZE_128; PACKET_SIZE_256 ];
     value := FpPacketSize_value |}.

(** ** Conversions between codes and physical values *)

(** [FpBaudrate.to_int]: [self * 9600]. *)
Definition FpBaudrate_to_int (self : FpBaudrate) : Z :=
  value self * 9600.

(** [FpBaudrate.from_int]; [//] is floor division. *)
Definition FpBaudrate_from_int (v : Z) : result FpBaudrate :=
  if has_value (E := FpBaudrate) v then enum_call v
  else
    let val := v / 9600 in
    if has_value (E := FpBaudrate) val then enum_call val
    else Raise (ValueError (not_supported_by_sensor v)).

(** [int(log2(n))].  [math.log2] raises a [ValueError] unless [n > 0]; on
    [n >= 1] the float is nonnegative and [int] truncates it.  Below 16, the
    only arguments whose logarithm is a packet-size code, and far beyond,
    the integer part of the float is [Z.log2 n]. *)
Definition int_log2 (n : Z) : result Z :=
  if n <=? 0 then Raise (ValueError math_domain_error)
  else Ok (Z.log2 n).

(** [FpPacketSize.to_int]: [32 * (2 ** self)]. *)
Definition FpPacketSize_to_int (self : FpPacketSize) : Z :=
  32 * 2 ^ value self.

(** [FpPacketSize.from_int]; [>>] is the arithmetic shift. *)
Definition FpPacketSize_from_int (v : Z) : result FpPacketSize :=
  if has_value (E := FpPacketSize) v then enum_call v
  else
    val <- int_log2 (Z.shiftr v 5) ;;
    if has_value (E := FpPacketSize) val then enum_call val
    else Raise (ValueError (not_compatible_packet_size v)).

(** ** Byte utilities *)

Definition Z_of_byte (b : byte) : Z := Z.of_N (Byte.to_N b).

Definition byte_of_Z (z : Z) : byte :=
  match Byte.of_N (Z.to_N z) with
  | Some b => b
  | None => x00
  end.

(** The [length] big-endian base-256 digits of [v]. *)
Fixpoint be_digits (length : nat) (v : Z) : list byte :=
  match length with
  | O => []
  | S k => be_digits k (v / 256) ++ [byte_of_Z (v mod 256)]
  end.

(** [int.to_bytes(length, byteorder='big', signed=False)]. *)
Definition int_to_bytes (v : Z) (length : nat) : result (list byte) :=
  if v <? 0 then Raise (OverflowError cant_convert_negative_int)
  else if 256 ^ Z.of_nat length <=? v then Raise (OverflowError int_too_big_to_convert)
  else Ok (be_digits length v).

(** [int.from_bytes(bytes, byteorder='big', signed=False)]. *)
Definition int_from_bytes (data : list byte) : Z :=
  fold_left (fun acc b => acc * 256 + Z_of_byte b) data 0.

Definition to_bytes (v : Z) (size : nat) : result (list byte) :=
  int_to_bytes v size.

Definition from_bytes (data : list byte) : Z :=
  int_from_bytes data.

(** The slice [data[a:b]] for [0 <= a <= b]. *)
Definition slice (a b : nat) (data : list byte) : list byte :=
  firstn (b - a) (skipn a data).

(** ** System parameters *)

Definition ADDRESS : Z := 0xFFFFFFFF.
Definition PASSWORD : Z := 0x00000000.

Record FpSystemParameters : Type := {
  status : Z;
  id : Z;
  address : Z;
  capacity : Z;
  packet : FpPacketSize;
  security : FpSecurity;
  baudrate : FpBaudrate
}.

Definition LENGTH : nat := 16.

Definition serialize (self : FpSystemParameters) : result (list byte) :=
  b_status <- to_bytes (status self) 2 ;;
  b_id <- to_bytes (id self) 2 ;;
  b_capacity <- to_bytes (capacity self) 2 ;;
  b_security <- to_bytes (value (security self)) 2 ;;
  b_address <- to_bytes (address self) 2 ;;
  b_packet <- to_bytes (value (packet self)) 2 ;;
  b_baudrate <- to_bytes (value (baudrate self)) 2 ;;
  Ok (b_status ++ b_id ++ b_capacity ++ b_security ++ b_address ++
      b_packet ++ b_baudrate).

Definition deserialize (data : list byte) : result (option FpSystemParameters) :=
  if (length data <? LENGTH)%nat then Ok None
  else
    let _stat := from_bytes (slice 0 2 data) in
    let _id := from_bytes (slice 2 4 data) in
    let _cap := from_bytes (slice 4 6 data) in
    let _sec := from_bytes (slice 6 8 data) in
    let _addr := from_bytes (slice 8 12 data) in
    let _pack := from_bytes (slice 12 14 data) in
    let _baud := from_bytes (slice 14 16 data) in
    if negb (has_value (E := FpSecurity) _sec) then Ok None
    else if negb (has_value (E := FpPacketSize) _pack) then Ok None
    else if negb (has_value (E := FpBaudrate) _baud) then Ok None
    else
      sec <- enum_call _sec ;;
      pack <- enum_call _pack ;;
      baud <- enum_call _baud ;;
      Ok (Some {| status := Z.land 0x0F _stat;
                  id := _id;
                  capacity := _cap;
                  security := sec;
                  address := _addr;
                  packet := pack;
                  baudrate := baud |}).

(** The block of the class docstring: as [serialize], with the address on the
    4 bytes 8 - 11 that [deserialize] reads. *)
Definition documented_block (self : FpSystemParameters) : result (list byte) :=
  b_status <- to_bytes (status self) 2 ;;
  b_id <- to_bytes (id self) 2 ;;
  b_capacity <- to_bytes (capacity self) 2 ;;
  b_security <- to_bytes (value (security self)) 2 ;;
  b_address <- to_bytes (address self) 4 ;;
  b_packet <- to_bytes (value (packet self)) 2 ;;
  b_baudrate <- to_bytes (value (baudrate self)) 2 ;;
  Ok (b_status ++ b_id ++ b_capacity ++ b_security ++ b_address ++
      b_packet ++ b_baudrate).

(** A sample value with every integer field 0. *)
Definition p0 : FpSystemParameters :=
  {| status := 0; id := 0; address := 0; capacity := 0;
     packet := PACKET_SIZE_32; security := SECURITY_LVL1;
     baudrate := BAUDRATE_9600 |}.

(** Sample buffers: 10 bytes; 16 bytes with security level 6; 17 bytes with
    status 0x12FF and valid codes. *)
Definition buffer_10 : list byte := repeat xff 10.

Definition buffer_bad_security : list byte :=
  [x00; x00; x00; x00; x00; x00; x00; x06;
   x00; x00; x00; x00; x00; x00; x00; x01].

Definition buffer_status_ff : list byte :=
  [x12; xff; x00; x2a; x01; x00; x00; x03;
   xff; xff; xff; xff; x00; x02; x00; x06; xaa].

(** ** The remaining enumerations *)

(** Fingerprint packet IDs. *)
Inductive FpPID : Type :=
| COMMAND
| DATA
| ACK
| END_OF_DATA.

Definition FpPID_value (p : FpPID) : Z :=
  match p with
  | COMMAND => 0x01
  | DATA => 0x02
  | ACK => 0x07
  | END_OF_DATA => 0x08
  end.

#[export] Instance FpPID_enum : IntEnumMod FpPID :=
  {| names := [ COMMAND; DATA; ACK; END_OF_DATA ]; value := FpPID_value |}.

(** Fingerprint command IDs. *)
Inductive FpCommand : Type :=
| ADDRESS_SET
| PASSWORD_SET
| PASSWORD_VERIFY
| PARAMETERS_SET
| PARAMETERS_GET
| HANDSHAKE
| IMAGE_CAPTURE
| IMAGE_CAPTURE_FREE
| IMAGE_CONVERT
| IMAGE_UPLOAD
| IMAGE_DOWNLOAD
| TEMPLATE_MATCH
| TEMPLATE_SEARCH
| TEMPLATE_SEARCH_FAST
| TEMPLATE_CREATE
| TEMPLATE_SAVE
| TEMPLATE_LOAD
| TEMPLATE_UPLOAD
| TEMPLATE_DOWNLOAD
| TEMPLATE_DELETE
| TEMPLATE_EMPTY
| TEMPLATE_COUNT
| TEMPLATE_INDEX
| NOTEPAD_SET
| NOTEPAD_GET
| GENERATE_RANDOM
| BACKLIGHT_ON
| BACKLIGHT_OFF.

Definition FpCommand_value (c : FpCommand) : Z :=
  match c with
  | ADDRESS_SET => 0x15
  | PASSWORD_SET => 0x12
  | PASSWORD_VERIFY => 0x13
  | PARAMETERS_SET => 0x0E
  | PARAMETERS_GET => 0x0F
  | HANDSHAKE => 0x53
  | IMAGE_CAPTURE => 0x01
  | IMAGE_CAPTURE_FREE => 0x52
  | IMAGE_CONVERT => 0x02
  | IMAGE_UPLOAD => 0x0B
  | IMAGE_DOWNLOAD => 0x0A
  | TEMPLATE_MATCH => 0x03
  | TEMPLATE_SEARCH => 0x04
  | TEMPLATE_SEARCH_FAST => 0x1B
  | TEMPLATE_CREATE => 0x05
  | TEMPLATE_SAVE => 0x06
  | TEMPLATE_LOAD => 0x07
  | TEMPLATE_UPLOAD => 0x09
  | TEMPLATE_DOWNLOAD => 0x08
  | TEMPLATE_DELETE => 0x0C
  | TEMPLATE_EMPTY => 0x0D
  | TEMPLATE_COUNT => 0x1D
  | TEMPLATE_INDEX => 0x1F
  | NOTEPAD_SET => 0x18
  | NOTEPAD_GET => 0x19
  | GENERATE_RANDOM => 0x14
  | BACKLIGHT_ON => 0x50
  | BACKLIGHT_OFF => 0x51
  end.

#[export] Instance FpCommand_enum : IntEnumMod FpCommand :=
  {| names := [ ADDRESS_SET; PASSWORD_SET; PASSWORD_VERIFY; PARAMETERS_SET;
                PARAMETERS_GET; HANDSHAKE;
                IMAGE_CAPTURE; IMAGE_CAPTURE_FREE; IMAGE_CONVERT; IMAGE_UPLOAD;
                IMAGE_DOWNLOAD;
                TEMPLATE_MATCH; TEMPLATE_SEARCH; TEMPLATE_SEARCH_FAST;
                TEMPLATE_CREATE; TEMPLATE_SAVE; TEMPLATE_LOAD; TEMPLATE_UPLOAD;
                TEMPLATE_DOWNLOAD; TEMPLATE_DELETE; TEMPLATE_EMPTY;
                TEMPLATE_COUNT; TEMPLATE_INDEX;
                NOTEPAD_SET; NOTEPAD_GET; GENERATE_RANDOM; BACKLIGHT_ON;
                BACKLIGHT_OFF ];
     value := FpCommand_value |}.

(** Fingerprint buffer IDs. *)
Inductive FpBufferID : Type :=
| BUFFER_1
| BUFFER_2.

Definition FpBufferID_value (b : FpBufferID) : Z :=
  match b with
  | BUFFER_1 => 0x01
  | BUFFER_2 => 0x02
  end.

#[export] Instance FpBufferID_enum : IntEnumMod FpBufferID :=
  {| names := [ BUFFER_1; BUFFER_2 ]; value := FpBufferID_value |}.

(** Fingerprint editable parameters. *)
Inductive FpParameterID : Type :=
| BAUDRATE
| SECURITY
| PACKET_SIZE.

Definition FpParameterID_value (p : FpParameterID) : Z :=
  match p with
  | BAUDRATE => 0x04
  | SECURITY => 0x05
  | PACKET_SIZE => 0x06
  end.

#[export] Instance FpParameterID_enum : IntEnumMod FpParameterID :=
  {| names := [ BAUDRATE; SECURITY; PACKET_SIZE ]; value := FpParameterID_value |}.

(** The classes [FpParameterID.get_type] can return. *)
Inductive ParameterType : Type :=
| Type_FpBaudrate
| Type_FpSecurity
| Type_FpPacketSize.

Inductive get_type_result : Type :=
| Returns (t : ParameterType)
| Raises_not_implemented.   (* ValueError('Parameter type not implemented') *)

(** [FpParameterID.get_type]; [==] on members of an [IntEnum] compares their
    integers. *)
Definition get_type (self : FpParameterID) : get_type_result :=
  if value self =? value BAUDRATE then Returns Type_FpBaudrate
  else if value self =? value SECURITY then Returns Type_FpSecurity
  else if value self =? value PACKET_SIZE then Returns Type_FpPacketSize
  else Raises_not_implemented.

(** ** Response tuples *)

Record FpResponseSet : Type := {
  succ : bool;
  code : FpError
}.

(** [FpResponseMatch(FpResponseSet)]: the inherited fields, then its own. *)
Record FpResponseMatch : Type := {
  match_set : FpResponseSet;
  index : Z;
  score : Z
}.

(** The values a [FpResponseValue] can carry; an image is kept opaque. *)
Inductive ResponseValue : Type :=
| value_none
| value_int (z : Z)
| value_bytes (data : list byte)
| value_image
| value_parameters (p : FpSystemParameters).

(** [FpResponseValue(FpResponseSet)]. *)
Record FpResponseValue : Type := {
  value_set : FpResponseSet;
  response_value : ResponseValue
}.

(** ** The enrollment example ([src/examples/ex_enroll.py])

    The SDK is outside the sources: its replies are the input of the model.
    A reply is [None] when the call raises.  One [Pass] holds what the SDK
    answers during one turn of the [while True] loop; the loop consumes a
    list of them and is [Waiting] when the list is used up. *)

(** The lines the example prints, and the exceptions it raises (which its
    [except] clause prints). *)
Inductive Line : Type :=
| communication_error (c : FpError)   (* 'Error when trying to communicate with the device' *)
| convert_try_again (c : FpError)     (* 'Error when converting fingerprint image (..). Try again!' *)
| bad_image (c : FpError)             (* 'Unable to get a good image of the fingerprint' *)
| already_registered (i : Z)          (* 'Finger already registered on index #..' *)
| no_match_try_again                  (* 'Fingers dont match. Try again!' *)
| no_match                            (* 'Fingers didnt match several times' *)
| template_creation_failed (c : FpError)
| template_store_failed (c : FpError)
| stored (v : ResponseValue)          (* 'Fingerprint stored successfully on index #..' *)
| sdk_exception.                      (* raised inside a call of the SDK *)

Record Pass : Type := {
  captured : bool;   (* both wait_finger_action, image_capture and backlight return *)
  image_convert : option FpResponseSet;
  match_1_n : option FpResponseMatch;
  match_1_1 : option FpResponseMatch
}.

Inductive LoopExit : Type :=
| Waiting (tries : Z) (buffer : FpBufferID)
| Break (buffer : FpBufferID)
| Raised (l : Line).

(** Prepend a printed line to the output of the rest of the run. *)
Definition print {A : Type} (l : Line) (r : list Line * A) : list Line * A :=
  (l :: fst r, snd r).

(** The [while True] loop of [example], from the values of [tries] and
    [buffer] at its head. *)
Fixpoint enroll_loop (tries : Z) (buffer : FpBufferID) (passes : list Pass)
  : list Line * LoopExit :=
  match passes with
  | [] => ([], Waiting tries buffer)
  | r :: rest =>
      if negb (captured r) then ([], Raised sdk_exception)
      else
        match image_convert r with
        | None => ([], Raised sdk_exception)
        | Some recv =>
            if negb (succ recv) then
              let tries := tries + 1 in
              if 3 <=? tries then ([], Raised (bad_image (code recv)))
              else print (convert_try_again (code recv))
                         (enroll_loop tries buffer rest)
            else
              let tries := 0 in
              match buffer with
              | BUFFER_1 =>
                  match match_1_n r with
                  | None => ([], Raised sdk_exception)
                  | Some recv =>
                      if negb (index recv =? -1)
                      then ([], Raised (already_registered (index recv)))
                      else enroll_loop tries BUFFER_2 rest
                  end
              | BUFFER_2 =>
                  match match_1_1 r with
                  | None => ([], Raised sdk_exception)
                  | Some recv =>
                      if negb (succ (match_set recv)) then
                        let tries := tries + 1 in
                        if 3 <=? tries then ([], Raised no_match)
                        else print no_match_try_again
                                   (enroll_loop tries buffer rest)
                      else ([], Break buffer)
                  end
              end
        end
  end.

Record Sdk : Type := {
  password_verify : option FpResponseSet;
  backlight : bool;   (* the first backlight call returns *)
  passes : list Pass;
  template_create : option FpResponseSet;
  template_save : FpBufferID -> option FpResponseValue
}.

Inductive Outcome : Type :=
| Stopped (printed : list Line)    (* the run ended; [finally] stopped the sensor *)
| InLoop (printed : list Line).    (* the loop waits for further replies *)

(** The steps after the loop: create the template, store it. *)
Definition enroll_store (sdk : Sdk) (buffer : FpBufferID) : Line :=
  match template_create sdk with
  | None => sdk_exception
  | Some recv =>
      if negb (succ recv) then template_creation_failed (code recv)
      else
        match template_save sdk buffer with
        | None => sdk_exception
        | Some recv =>
            if negb (succ (value_set recv))
            then template_store_failed (code (value_set recv))
            else stored (response_value recv)
        end
  end.

(** [example(sdk)]: whatever is raised in the [try] block is printed by the
    [except] clause ([sdk.Exception] is taken to derive from [Exception]),
    and [finally] stops the sensor. *)
Definition example (sdk : Sdk) : Outcome :=
  match password_verify sdk with
  | None => Stopped [sdk_exception]
  | Some recv =>
      if negb (succ recv) then Stopped [communication_error (code recv)]
      else if negb (backlight sdk) then Stopped [sdk_exception]
      else
        match enroll_loop 0 BUFFER_1 (passes sdk) with
        | (out, Waiting _ _) => InLoop out
        | (out, Raised l) => Stopped (out ++ [l])
        | (out, Break buffer) => Stopped (out ++ [enroll_store sdk buffer])
        end
  end.

(** The lines of an outcome. *)
Definition printed_lines (o : Outcome) : list Line :=
  match o with
  | Stopped out => out
  | InLoop out => out
  end.

(** Lines the loop prints before it goes round again. *)
Definition retry_line (l : Line) : Prop :=
  (exists c, l = convert_try_again c) \/ l = no_match_try_again.

(** Exceptions the loop can raise. *)
Definition loop_exception (l : Line) : Prop :=
  (exists c, l = bad_image c) \/
  (exists i, l = already_registered i /\ i <> -1) \/
  l = sdk_exception.

(** A pass whose conversion fails: the capture returns and [image_convert]
    answers without success. *)
Definition convert_fails (r : Pass) : Prop :=
  captured r = true /\
  exists recv, image_convert r = Some recv /\ succ recv = false.

(** Sample replies: a pass with a good conversion and no finger found, a pass
    with a good conversion and matching fingers, a pass with a failed
    conversion, a pass with a mismatch; and an SDK for which the enrollment
    succeeds at index 7. *)
Definition reply_ok : FpResponseSet := {| succ := true; code := SUCCESS |}.

Definition pass_first : Pass :=
  {| captured := true;
     image_convert := Some reply_ok;
     match_1_n := Some {| match_set := {| succ := false; code := ERROR_FINGER_NOT_FOUND |};
                          index := -1; score := 0 |};
     match_1_1 := None |}.

Definition pass_second : Pass :=
  {| captured := true;
     image_convert := Some reply_ok;
     match_1_n := None;
     match_1_1 := Some {| match_set := reply_ok; index := 0; score := 80 |} |}.

Definition pass_messy : Pass :=
  {| captured := true;
     image_convert := Some {| succ := false; code := ERROR_IMAGE_MESSY |};
     match_1_n := None;
     match_1_1 := None |}.

Definition pass_mismatch : Pass :=
  {| captured := true;
     image_convert := Some reply_ok;
     match_1_n := None;
     match_1_1 := Some {| match_set := {| succ := false; code := ERROR_FINGER_MISMATCH |};
                          index := 0; score := 0 |} |}.

Definition sdk_enrolls : Sdk :=
  {| password_verify := Some reply_ok;
     backlight := true;
     passes := [pass_first; pass_messy; pass_second];
     template_create := Some reply_ok;
     template_save := fun _ => Some {| value_set := reply_ok;
                                       response_value := value_int 7 |} |}.

(** * Properties *)

(** ** The error monad *)

Lemma bind_Ok_inv {A B : Type} (r : result A) (k : A -> result B) (b : B) :
  bind r k = Ok b -> exists a, r = Ok a /\ k a = Ok b.
Proof.
  destruct r as [a | e]; simpl; intros Hk.
  - exists a. split; [reflexivity | exact Hk].
  - discriminate Hk.
Qed.

(** ** Enumerations *)

Section IntEnumFacts.
Context {E : Type} `{IntEnumMod E}.

Lemma has_value_by_value (v : Z) :
  has_value v = true -> exists m, by_value v = Some m /\ value m = v.
Proof.
  unfold has_value, by_value.
  induction members as [| m l IH]; simpl; [discriminate |].
  destruct (Z.eqb_spec (value m) v) as [Heq | Hne]; simpl.
  - intros _. exists m. split; [reflexivity | exact Heq].
  - exact IH.
Qed.

Lemma has_value_enum_call (v : Z) :
  has_value v = true -> exists m, enum_call v = Ok m /\ value m = v.
Proof.
  intros Hv. destruct (has_value_by_value v Hv) as [m [Hm Hval]].
  exists m. unfold enum_call. rewrite Hm. split; [reflexivity | exact Hval].
Qed.

End IntEnumFacts.

(** No configuration enumeration has an alias: every name is a member. *)
Lemma FpSecurity_members : members (E := FpSecurity) = names.
Proof. reflexivity. Qed.

Lemma FpPacketSize_members : members (E := FpPacketSize) = names.
Proof. reflexivity. Qed.

Lemma FpBaudrate_members : members (E := FpBaudrate) = names.
Proof. reflexivity. Qed.

Lemma FpSecurity_has_value (v : Z) :
  has_value (E := FpSecurity) v = true <-> 1 <= v <= 5.
Proof.
  unfold has_value. rewrite FpSecurity_members. cbn -[Z.eqb].
  rewrite !orb_true_iff, !Z.eqb_eq. lia.
Qed.

Lemma FpPacketSize_has_value (v : Z) :
  has_value (E := FpPacketSize) v = true <-> 0 <= v <= 3.
Proof.
  unfold has_value. rewrite FpPacketSize_members. cbn -[Z.eqb].
  rewrite !orb_true_iff, !Z.eqb_eq. lia.
Qed.

Lemma FpBaudrate_has_value (v : Z) :
  has_value (E := FpBaudrate) v = true <-> 1 <= v <= 12.
Proof.
  unfold has_value. rewrite FpBaudrate_members. cbn -[Z.eqb].
  rewrite !orb_true_iff, !Z.eqb_eq. lia.
Qed.

(** A boolean test is false exactly when its characterisation fails. *)
Lemma false_iff_not (b : bool) (P : Prop) :
  (b = true <-> P) -> (b = false <-> ~ P).
Proof.
  intros [H1 H2]. destruct b; split; intros H.
  - discriminate H.
  - exfalso. apply H, H1. reflexivity.
  - intros HP. apply H2 in HP. discriminate HP.
  - reflexivity.
Qed.

(** Calling a class on the value of one of its members gives the member. *)
Lemma FpSecurity_call_value (m : FpSecurity) : enum_call (value m) = Ok m.
Proof. destruct m; reflexivity. Qed.

Lemma FpPacketSize_call_value (m : FpPacketSize) : enum_call (value m) = Ok m.
Proof. destruct m; reflexivity. Qed.

Lemma FpBaudrate_call_value (m : FpBaudrate) : enum_call (value m) = Ok m.
Proof. destruct m; reflexivity. Qed.

Lemma FpSecurity_value_range (m : FpSecurity) : 1 <= value m <= 5.
Proof. destruct m; simpl; lia. Qed.

Lemma FpPacketSize_value_range (m : FpPacketSize) : 0 <= value m <= 3.
Proof. destruct m; simpl; lia. Qed.

Lemma FpBaudrate_value_range (m : FpBaudrate) : 1 <= value m <= 12.
Proof. destruct m; simpl; lia. Qed.

(** ** Bytes *)

Lemma Z_of_byte_range (b : byte) : 0 <= Z_of_byte b < 256.
Proof.
  unfold Z_of_byte. pose proof (Byte.to_N_bounded b) as Hb. lia.
Qed.

Lemma Z_of_byte_of_Z (z : Z) : 0 <= z < 256 -> Z_of_byte (byte_of_Z z) = z.
Proof.
  intros Hz. unfold Z_of_byte, byte_of_Z.
  destruct (Byte.of_N (Z.to_N z)) as [b |] eqn:Hb.
  - apply Byte.to_of_N in Hb. rewrite Hb. lia.
  - apply Byte.of_N_None_iff in Hb. lia.
Qed.

Lemma be_digits_length (n : nat) (v : Z) : length (be_digits n v) = n.
Proof.
  revert v. induction n as [| k IH]; intros v; simpl.
  - reflexivity.
  - rewrite length_app, IH. simpl. lia.
Qed.

Lemma int_from_bytes_snoc (l : list byte) (b : byte) :
  int_from_bytes (l ++ [b]) = int_from_bytes l * 256 + Z_of_byte b.
Proof.
  unfold int_from_bytes. rewrite fold_left_app. reflexivity.
Qed.

Lemma int_from_bytes_be_digits (n : nat) (v : Z) :
  0 <= v < 256 ^ Z.of_nat n -> int_from_bytes (be_digits n v) = v.
Proof.
  revert v. induction n as [| k IH]; intros v Hv.
  - simpl in *. unfold int_from_bytes. simpl. lia.
  - cbn [be_digits]. rewrite int_from_bytes_snoc.
    rewrite Nat2Z.inj_succ, Z.pow_succ_r in Hv by lia.
    rewrite IH.
    + rewrite Z_of_byte_of_Z by (apply Z.mod_pos_bound; lia).
      pose proof (Z.div_mod v 256). lia.
    + split.
      * apply Z.div_pos; lia.
      * apply Z.div_lt_upper_bound; lia.
Qed.

Lemma to_bytes_Ok (v : Z) (size : nat) (bs : list byte) :
  to_bytes v size = Ok bs ->
  0 <= v < 256 ^ Z.of_nat size /\ bs = be_digits size v.
Proof.
  unfold to_bytes, int_to_bytes.
  destruct (Z.ltb_spec v 0) as [Hneg | Hnn]; [discriminate |].
  destruct (Z.leb_spec (256 ^ Z.of_nat size) v) as [Hbig | Hfit]; [discriminate |].
  intros Hok. injection Hok as <-. split; [lia | reflexivity].
Qed.

Lemma to_bytes_fits (v : Z) (size : nat) :
  0 <= v < 256 ^ Z.of_nat size -> to_bytes v size = Ok (be_digits size v).
Proof.
  intros Hv. unfold to_bytes, int_to_bytes.
  destruct (Z.ltb_spec v 0) as [Hneg | Hnn]; [lia |].
  destruct (Z.leb_spec (256 ^ Z.of_nat size) v) as [Hbig | Hfit]; [lia |].
  reflexivity.
Qed.

Lemma to_bytes_length (v : Z) (size : nat) (bs : list byte) :
  to_bytes v size = Ok bs -> length bs = size.
Proof.
  intros Hok. apply to_bytes_Ok in Hok as [_ ->]. apply be_digits_length.
Qed.

Lemma to_bytes_too_big (v : Z) (size : nat) :
  256 ^ Z.of_nat size <= v ->
  to_bytes v size = Raise (OverflowError int_too_big_to_convert).
Proof.
  intros Hv. unfold to_bytes, int_to_bytes.
  assert (0 < 256 ^ Z.of_nat size) by (apply Z.pow_pos_nonneg; lia).
  destruct (Z.ltb_spec v 0) as [Hneg | Hnn]; [lia |].
  destruct (Z.leb_spec (256 ^ Z.of_nat size) v) as [Hbig | Hfit]; [| lia].
  reflexivity.
Qed.

Lemma to_bytes_overflow (v : Z) (size : nat) (e : PyExc) :
  to_bytes v size = Raise e -> exists msg, e = OverflowError msg.
Proof.
  unfold to_bytes, int_to_bytes.
  destruct (v <? 0); [| destruct (256 ^ Z.of_nat size <=? v)];
    intros Hr; try discriminate Hr; injection Hr as <-; eexists; reflexivity.
Qed.


(** ** Codes and physical values *)

Lemma FpBaudrate_code_exists (c : Z) :
  1 <= c <= 12 -> exists code : FpBaudrate, value code = c.
Proof.
  intros Hc. apply FpBaudrate_has_value in Hc.
  destruct (has_value_enum_call c Hc) as [m [_ Hm]]. exists m. exact Hm.
Qed.

Lemma FpPacketSize_code_exists (c : Z) :
  0 <= c <= 3 -> exists code : FpPacketSize, value code = c.
Proof.
  intros Hc. apply FpPacketSize_has_value in Hc.
  destruct (has_value_enum_call c Hc) as [m [_ Hm]]. exists m. exact Hm.
Qed.

(** C7: every baud-rate code (the integers 1..12) goes to its baud value,
    [code * 9600], and [FpBaudrate.from_int] brings that value back to the
    same code. *)
Theorem FpBaudrate_from_int_to_int (code : FpBaudrate) :
  1 <= value code <= 12 /\
  FpBaudrate_to_int code = value code * 9600 /\
  FpBaudrate_from_int (FpBaudrate_to_int code) = Ok code.
Proof.
  pose proof (FpBaudrate_value_range code) as Hr.
  split; [exact Hr |]. split; [reflexivity |].
  unfold FpBaudrate_from_int, FpBaudrate_to_int.
  assert (Hraw : has_value (E := FpBaudrate) (value code * 9600) = false).
  { apply (false_iff_not _ _ (FpBaudrate_has_value _)). lia. }
  rewrite Hraw. cbv zeta. rewrite Z.div_mul by lia.
  assert (Hcode : has_value (E := FpBaudrate) (value code) = true).
  { apply FpBaudrate_has_value. exact Hr. }
  rewrite Hcode. apply FpBaudrate_call_value.
Qed.

(** C8: every packet-size code (the integers 0..3) goes to its size,
    [32 * 2^code], and [FpPacketSize.from_int] brings that size back to the
    same code. *)
Theorem FpPacketSize_from_int_to_int (code : FpPacketSize) :
  0 <= value code <= 3 /\
  FpPacketSize_to_int code = 32 * 2 ^ value code /\
  FpPacketSize_from_int (FpPacketSize_to_int code) = Ok code.
Proof.
  pose proof (FpPacketSize_value_range code) as Hr.
  split; [exact Hr |]. split; [reflexivity |].
  unfold FpPacketSize_from_int, FpPacketSize_to_int.
  assert (Hpow : 1 <= 2 ^ value code) by (apply Z.lt_pred_le, Z.pow_pos_nonneg; lia).
  assert (Hraw : has_value (E := FpPacketSize) (32 * 2 ^ value code) = false).
  { apply (false_iff_not _ _ (FpPacketSize_has_value _)). lia. }
  rewrite Hraw.
  rewrite Z.shiftr_div_pow2 by lia.
  change (2 ^ 5) with 32. rewrite Z.mul_comm, Z.div_mul by lia.
  unfold int_log2.
  destruct (Z.leb_spec (2 ^ value code) 0) as [Hle | _]; [lia |].
  cbn [bind]. rewrite Z.log2_pow2 by lia.
  assert (Hcode : has_value (E := FpPacketSize) (value code) = true).
  { apply FpPacketSize_has_value. exact Hr. }
  rewrite Hcode. apply FpPacketSize_call_value.
Qed.

(** The unsupported-baud-rate error is raised exactly on the integers that
    are neither a code nor have a code as quotient by 9600. *)
Lemma FpBaudrate_from_int_raises (v : Z) :
  FpBaudrate_from_int v = Raise (ValueError (not_supported_by_sensor v)) <->
  ~ 1 <= v <= 12 /\ ~ 9600 <= v < 124800.
Proof.
  unfold FpBaudrate_from_int. cbv zeta.
  pose proof (Z.div_mod v 9600 ltac:(lia)) as Hdm.
  pose proof (Z.mod_pos_bound v 9600 ltac:(lia)) as Hmod.
  destruct (has_value (E := FpBaudrate) v) eqn:Hv.
  - destruct (has_value_enum_call v Hv) as [m [-> _]].
    apply FpBaudrate_has_value in Hv. split; [discriminate | lia].
  - apply (false_iff_not _ _ (FpBaudrate_has_value v)) in Hv.
    destruct (has_value (E := FpBaudrate) (v / 9600)) eqn:Hq.
    + destruct (has_value_enum_call _ Hq) as [m [-> _]].
      apply FpBaudrate_has_value in Hq. split; [discriminate | lia].
    + apply (false_iff_not _ _ (FpBaudrate_has_value _)) in Hq.
      split; [intros _; lia | reflexivity].
Qed.

(** C3, as the code has it: 100000 is no code, but [100000 // 9600 = 10] is,
    so [FpBaudrate.from_int(100000)] returns [BAUDRATE_96000]; the
    unsupported-baud-rate error is raised exactly on the integers outside
    1..12 and outside 9600..124799, such as 200000. *)
Theorem FpBaudrate_from_int_100000 :
  FpBaudrate_from_int 100000 = Ok BAUDRATE_96000 /\
  FpBaudrate_from_int 200000 = Raise (ValueError (not_supported_by_sensor 200000)) /\
  forall v : Z,
    FpBaudrate_from_int v = Raise (ValueError (not_supported_by_sensor v)) <->
    ~ 1 <= v <= 12 /\ ~ 9600 <= v < 124800.
Proof.
  split; [reflexivity |]. split; [reflexivity |].
  exact FpBaudrate_from_int_raises.
Qed.

(** C3 as stated fails: on 100000 the conversion does not raise. *)
Lemma FpBaudrate_from_int_100000_no_error :
  ~ raises (FpBaudrate_from_int 100000).
Proof.
  intros [e He]. vm_compute in He. discriminate He.
Qed.

(** From 512 on, the shifted value has a logarithm of 4 or more, which is no
    packet-size code. *)
Lemma FpPacketSize_from_int_large (v : Z) :
  512 <= v ->
  FpPacketSize_from_int v = Raise (ValueError (not_compatible_packet_size v)).
Proof.
  intros Hv. unfold FpPacketSize_from_int.
  assert (Hraw : has_value (E := FpPacketSize) v = false).
  { apply (false_iff_not _ _ (FpPacketSize_has_value _)). lia. }
  rewrite Hraw. rewrite Z.shiftr_div_pow2 by lia. change (2 ^ 5) with 32.
  assert (Hq : 16 <= v / 32) by (apply Z.div_le_lower_bound; lia).
  unfold int_log2.
  destruct (Z.leb_spec (v / 32) 0) as [Hle | _]; [lia |].
  cbn [bind].
  assert (Hlog : 4 <= Z.log2 (v / 32)).
  { change 4 with (Z.log2 16). apply Z.log2_le_mono. exact Hq. }
  assert (Hcode : has_value (E := FpPacketSize) (Z.log2 (v / 32)) = false).
  { apply (false_iff_not _ _ (FpPacketSize_has_value _)). lia. }
  rewrite Hcode. reflexivity.
Qed.

(** C4, as the code has it: [100 >> 5 = 3] and [int(log2(3)) = 1] is a code,
    so [FpPacketSize.from_int(100)] returns [PACKET_SIZE_64]; every integer
    from 512 on, such as 1000, fails with the unsupported-packet-size
    error. *)
Theorem FpPacketSize_from_int_100 :
  FpPacketSize_from_int 100 = Ok PACKET_SIZE_64 /\
  forall v : Z,
    512 <= v ->
    FpPacketSize_from_int v = Raise (ValueError (not_compatible_packet_size v)).
Proof.
  split; [reflexivity | exact FpPacketSize_from_int_large].
Qed.

Lemma FpPacketSize_from_int_100_witness :
  512 <= 1000 /\
  FpPacketSize_from_int 1000 = Raise (ValueError (not_compatible_packet_size 1000)).
Proof.
  split; [lia | apply (proj2 FpPacketSize_from_int_100 1000); lia].
Defined.

(** C4 as stated fails: on 100 the conversion does not raise. *)
Lemma FpPacketSize_from_int_100_no_error :
  ~ raises (FpPacketSize_from_int 100).
Proof.
  intros [e He]. vm_compute in He. discriminate He.
Qed.

(** C10: on every integer in 4..31, [FpPacketSize.from_int] fails with the
    domain error of [log2] ([value >> 5] is 0), not with the
    unsupported-packet-size error. *)
Theorem FpPacketSize_from_int_domain_error (v : Z) :
  4 <= v <= 31 ->
  Z.shiftr v 5 = 0 /\
  FpPacketSize_from_int v = Raise (ValueError math_domain_error) /\
  FpPacketSize_from_int v <> Raise (ValueError (not_compatible_packet_size v)).
Proof.
  intros Hv.
  assert (Hshift : Z.shiftr v 5 = 0).
  { rewrite Z.shiftr_div_pow2 by lia. apply Z.div_small. change (2 ^ 5) with 32. lia. }
  assert (Hfail : FpPacketSize_from_int v = Raise (ValueError math_domain_error)).
  { unfold FpPacketSize_from_int.
    assert (Hraw : has_value (E := FpPacketSize) v = false).
    { apply (false_iff_not _ _ (FpPacketSize_has_value _)). lia. }
    rewrite Hraw, Hshift. reflexivity. }
  split; [exact Hshift |]. split; [exact Hfail |].
  rewrite Hfail. discriminate.
Qed.

Lemma FpPacketSize_from_int_domain_error_witness :
  4 <= 16 <= 31 /\
  FpPacketSize_from_int 16 = Raise (ValueError math_domain_error).
Proof.
  split; [lia | apply (FpPacketSize_from_int_domain_error 16); lia].
Defined.

(** ** The system parameters block *)

Lemma serialize_Ok (p : FpSystemParameters) (bs : list byte) :
  serialize p = Ok bs ->
  (0 <= status p < 65536 /\ 0 <= id p < 65536 /\
   0 <= capacity p < 65536 /\ 0 <= address p < 65536) /\
  bs = be_digits 2 (status p) ++ be_digits 2 (id p) ++
       be_digits 2 (capacity p) ++ be_digits 2 (value (security p)) ++
       be_digits 2 (address p) ++
       be_digits 2 (value (packet p)) ++ be_digits 2 (value (baudrate p)).
Proof.
  unfold serialize. intros Hs.
  apply bind_Ok_inv in Hs as [b0 [H0 Hs]].
  apply bind_Ok_inv in Hs as [b1 [H1 Hs]].
  apply bind_Ok_inv in Hs as [b2 [H2 Hs]].
  apply bind_Ok_inv in Hs as [b3 [H3 Hs]].
  apply bind_Ok_inv in Hs as [b4 [H4 Hs]].
  apply bind_Ok_inv in Hs as [b5 [H5 Hs]].
  apply bind_Ok_inv in Hs as [b6 [H6 Hs]].
  injection Hs as <-.
  apply to_bytes_Ok in H0 as [R0 ->], H1 as [R1 ->], H2 as [R2 ->],
    H3 as [_ ->], H4 as [R4 ->], H5 as [_ ->], H6 as [_ ->].
  change (256 ^ Z.of_nat 2) with 65536 in *.
  repeat split; lia.
Qed.

Lemma serialize_Ok_length (p : FpSystemParameters) (bs : list byte) :
  serialize p = Ok bs -> length bs = 14%nat.
Proof.
  intros Hs. apply serialize_Ok in Hs as [_ ->].
  rewrite !length_app, !be_digits_length. reflexivity.
Qed.

(** C2, as the code has it: a successful [serialize] lays out the fields
    big-endian in the order status, id, capacity, security, address,
    packet_size, baud_rate, each on 2 bytes, the address included: the buffer
    has 14 bytes, not the 16 of the documented block. *)
Theorem serialize_layout (p : FpSystemParameters) (bs : list byte) :
  serialize p = Ok bs ->
  bs = be_digits 2 (status p) ++ be_digits 2 (id p) ++
       be_digits 2 (capacity p) ++ be_digits 2 (value (security p)) ++
       be_digits 2 (address p) ++
       be_digits 2 (value (packet p)) ++ be_digits 2 (value (baudrate p)) /\
  length bs = 14%nat /\ length bs <> LENGTH.
Proof.
  intros Hs. split; [apply serialize_Ok in Hs as [_ Hbs]; exact Hbs |].
  apply serialize_Ok_length in Hs. rewrite Hs. split; [reflexivity |].
  unfold LENGTH. lia.
Qed.

Lemma serialize_layout_witness :
  serialize p0 =
    Ok [x00; x00; x00; x00; x00; x00; x00; x01; x00; x00; x00; x00; x00; x01] /\
  length [x00; x00; x00; x00; x00; x00; x00; x01; x00; x00; x00; x00; x00; x01]
    = 14%nat.
Proof.
  split; [reflexivity |].
  apply (serialize_layout p0); reflexivity.
Defined.

(** C1, as the code has it: whatever [serialize] returns is 14 bytes long,
    and [deserialize] answers [None] on it; no value survives the round
    trip. *)
Theorem serialize_deserialize (p : FpSystemParameters) (bs : list byte) :
  serialize p = Ok bs -> deserialize bs = Ok None.
Proof.
  intros Hs. apply serialize_Ok_length in Hs.
  unfold deserialize. rewrite Hs. reflexivity.
Qed.

Lemma serialize_deserialize_witness :
  exists bs, serialize p0 = Ok bs /\ deserialize bs = Ok None.
Proof.
  eexists. split; [reflexivity |].
  apply (serialize_deserialize p0); reflexivity.
Defined.

(** C9: when the address exceeds 0xFFFF, [serialize] raises an
    [OverflowError] and returns no buffer; so it does on the default
    address. *)
Theorem serialize_address_overflow (p : FpSystemParameters) :
  0xFFFF < address p ->
  (exists msg, serialize p = Raise (OverflowError msg)) /\
  (forall bs, serialize p <> Ok bs).
Proof.
  intros Ha.
  assert (Hraise : exists msg, serialize p = Raise (OverflowError msg)).
  { unfold serialize.
    destruct (to_bytes (status p) 2) as [b0 | e] eqn:H0; cbn [bind];
      [| apply to_bytes_overflow in H0 as [msg ->]; exists msg; reflexivity].
    destruct (to_bytes (id p) 2) as [b1 | e] eqn:H1; cbn [bind];
      [| apply to_bytes_overflow in H1 as [msg ->]; exists msg; reflexivity].
    destruct (to_bytes (capacity p) 2) as [b2 | e] eqn:H2; cbn [bind];
      [| apply to_bytes_overflow in H2 as [msg ->]; exists msg; reflexivity].
    destruct (to_bytes (value (security p)) 2) as [b3 | e] eqn:H3; cbn [bind];
      [| apply to_bytes_overflow in H3 as [msg ->]; exists msg; reflexivity].
    rewrite to_bytes_too_big by (change (256 ^ Z.of_nat 2) with 65536; lia).
    exists int_too_big_to_convert. reflexivity. }
  split; [exact Hraise |].
  destruct Hraise as [msg ->]. intros bs. discriminate.
Qed.

Lemma serialize_address_overflow_witness :
  exists msg,
    serialize {| status := 0; id := 0; address := ADDRESS; capacity := 0;
                 packet := PACKET_SIZE_32; security := SECURITY_LVL1;
                 baudrate := BAUDRATE_9600 |} = Raise (OverflowError msg).
Proof.
  apply (serialize_address_overflow
           {| status := 0; id := 0; address := ADDRESS; capacity := 0;
              packet := PACKET_SIZE_32; security := SECURITY_LVL1;
              baudrate := BAUDRATE_9600 |}).
  vm_compute. reflexivity.
Defined.

(** The two outcomes of [deserialize]: [None], or the record read from the
    first 16 bytes, with the status masked. *)
Lemma deserialize_cases (data : list byte) :
  deserialize data = Ok None \/
  exists sec pack baud,
    (LENGTH <= length data)%nat /\
    value sec = from_bytes (slice 6 8 data) /\
    value pack = from_bytes (slice 12 14 data) /\
    value baud = from_bytes (slice 14 16 data) /\
    deserialize data =
      Ok (Some {| status := Z.land 0x0F (from_bytes (slice 0 2 data));
                  id := from_bytes (slice 2 4 data);
                  capacity := from_bytes (slice 4 6 data);
                  security := sec;
                  address := from_bytes (slice 8 12 data);
                  packet := pack;
                  baudrate := baud |}).
Proof.
  unfold deserialize.
  destruct (Nat.ltb_spec (length data) LENGTH) as [Hshort | Hlong];
    [left; reflexivity |].
  cbv zeta.
  destruct (has_value (E := FpSecurity) (from_bytes (slice 6 8 data))) eqn:Hsec;
    cbn [negb]; [| left; reflexivity].
  destruct (has_value (E := FpPacketSize) (from_bytes (slice 12 14 data))) eqn:Hpack;
    cbn [negb]; [| left; reflexivity].
  destruct (has_value (E := FpBaudrate) (from_bytes (slice 14 16 data))) eqn:Hbaud;
    cbn [negb]; [| left; reflexivity].
  destruct (has_value_enum_call _ Hsec) as [sec [-> Vsec]].
  destruct (has_value_enum_call _ Hpack) as [pack [-> Vpack]].
  destruct (has_value_enum_call _ Hbaud) as [baud [-> Vbaud]].
  right. exists sec, pack, baud. cbn [bind]. repeat split; assumption.
Qed.

(** C5: [deserialize] never raises; it returns [None] on fewer than 16
    bytes, and whenever the decoded security level, packet-size code or
    baud-rate code is no member of its enumeration; the status of a returned
    record is the decoded status masked by 0x0F. *)
Theorem deserialize_spec (data : list byte) :
  (exists r, deserialize data = Ok r) /\
  ((length data < 16)%nat -> deserialize data = Ok None) /\
  (has_value (E := FpSecurity) (from_bytes (slice 6 8 data)) = false \/
   has_value (E := FpPacketSize) (from_bytes (slice 12 14 data)) = false \/
   has_value (E := FpBaudrate) (from_bytes (slice 14 16 data)) = false ->
   deserialize data = Ok None) /\
  (forall p, deserialize data = Ok (Some p) ->
             status p = Z.land 0x0F (from_bytes (slice 0 2 data))).
Proof.
  split; [| split; [| split]].
  - destruct (deserialize_cases data) as [-> | [sec [pack [baud [_ [_ [_ [_ ->]]]]]]]];
      eexists; reflexivity.
  - intros Hshort. unfold deserialize.
    destruct (Nat.ltb_spec (length data) LENGTH) as [_ | Hlong];
      [reflexivity | unfold LENGTH in Hlong; lia].
  - intros Hbad. unfold deserialize.
    destruct (length data <? LENGTH)%nat; [reflexivity |]. cbv zeta.
    destruct (has_value (E := FpSecurity) (from_bytes (slice 6 8 data)));
      cbn [negb]; [| reflexivity].
    destruct (has_value (E := FpPacketSize) (from_bytes (slice 12 14 data)));
      cbn [negb]; [| reflexivity].
    destruct (has_value (E := FpBaudrate) (from_bytes (slice 14 16 data)));
      cbn [negb]; [| reflexivity].
    destruct Hbad as [Hbad | [Hbad | Hbad]]; discriminate Hbad.
  - intros p Hp.
    destruct (deserialize_cases data) as [Hnone | [sec [pack [baud [_ [_ [_ [_ Hsome]]]]]]]].
    + rewrite Hnone in Hp. discriminate Hp.
    + rewrite Hsome in Hp. injection Hp as <-. reflexivity.
Qed.

Lemma deserialize_spec_witness :
  deserialize buffer_10 = Ok None /\
  deserialize buffer_bad_security = Ok None /\
  (exists p, deserialize buffer_status_ff = Ok (Some p) /\ status p = 0x0F).
Proof.
  split; [| split].
  - apply (proj1 (proj2 (deserialize_spec buffer_10))). simpl. lia.
  - apply (proj1 (proj2 (proj2 (deserialize_spec buffer_bad_security)))).
    left. reflexivity.
  - eexists. split; [reflexivity |].
    apply (proj2 (proj2 (proj2 (deserialize_spec buffer_status_ff)))).
    reflexivity.
Defined.

(** *** The documented block

    [deserialize] is a left inverse of the layout of the class docstring,
    where the address takes the bytes 8 - 11. *)

Lemma from_bytes_2 (v : Z) :
  0 <= v < 65536 ->
  from_bytes [byte_of_Z (v / 256 mod 256); byte_of_Z (v mod 256)] = v.
Proof.
  intros Hv. change (int_from_bytes (be_digits 2 v) = v).
  apply int_from_bytes_be_digits. change (256 ^ Z.of_nat 2) with 65536. exact Hv.
Qed.

Lemma from_bytes_4 (v : Z) :
  0 <= v < 4294967296 ->
  from_bytes [byte_of_Z (v / 256 / 256 / 256 mod 256);
              byte_of_Z (v / 256 / 256 mod 256);
              byte_of_Z (v / 256 mod 256); byte_of_Z (v mod 256)] = v.
Proof.
  intros Hv. change (int_from_bytes (be_digits 4 v) = v).
  apply int_from_bytes_be_digits.
  change (256 ^ Z.of_nat 4) with 4294967296. exact Hv.
Qed.

Lemma land_low_nibble (s : Z) : 0 <= s <= 15 -> Z.land 0x0F s = s.
Proof.
  intros Hs. rewrite Z.land_comm. change 0x0F with (Z.ones 4).
  rewrite Z.land_ones by lia. apply Z.mod_small. change (2 ^ 4) with 16. lia.
Qed.

(** X7: on the 16-byte layout of the class docstring, [deserialize] gives
    back every value whose status is in 0..15, whose id and capacity are in
    0..0xFFFF and whose address is in 0..0xFFFFFFFF. *)
Theorem deserialize_documented_block (p : FpSystemParameters) :
  0 <= status p <= 15 ->
  0 <= id p < 65536 ->
  0 <= capacity p < 65536 ->
  0 <= address p < 4294967296 ->
  exists bs,
    documented_block p = Ok bs /\ length bs = LENGTH /\
    deserialize bs = Ok (Some p).
Proof.
  intros Hst Hid Hcap Haddr.
  pose proof (FpSecurity_value_range (security p)) as Hsec.
  pose proof (FpPacketSize_value_range (packet p)) as Hpack.
  pose proof (FpBaudrate_value_range (baudrate p)) as Hbaud.
  unfold documented_block.
  rewrite !to_bytes_fits
    by (first [ change (256 ^ Z.of_nat 2) with 65536
              | change (256 ^ Z.of_nat 4) with 4294967296 ]; lia).
  cbn [bind]. eexists. split; [reflexivity |].
  split; [rewrite !length_app, !be_digits_length; reflexivity |].
  unfold deserialize.
  rewrite !length_app, !be_digits_length.
  change (2 + (2 + (2 + (2 + (4 + (2 + 2))))) <? LENGTH)%nat with false.
  cbv iota zeta.
  cbn [be_digits app slice firstn skipn Nat.sub].
  rewrite !from_bytes_2 by lia. rewrite from_bytes_4 by lia.
  rewrite (proj2 (FpSecurity_has_value _) Hsec).
  rewrite (proj2 (FpPacketSize_has_value _) Hpack).
  rewrite (proj2 (FpBaudrate_has_value _) Hbaud).
  cbn [negb].
  rewrite FpSecurity_call_value, FpPacketSize_call_value, FpBaudrate_call_value.
  cbn [bind]. rewrite land_low_nibble by lia.
  destruct p; reflexivity.
Qed.

(** ** Device status codes *)

(** Apart from the pair bound to 0xFE, the names of [FpError] have pairwise
    distinct codes. *)
Lemma FpError_value_collision (a b : FpError) :
  value a = value b ->
  a = b \/
  (a = ERROR_PACKET_FAULTY /\ b = ERROR_DATABASE_FULL) \/
  (a = ERROR_DATABASE_FULL /\ b = ERROR_PACKET_FAULTY).
Proof.
  destruct a; destruct b; cbn; intros Hv;
    first [ discriminate Hv
          | left; reflexivity
          | right; left; split; reflexivity
          | right; right; split; reflexivity ].
Qed.

(** C6, as the code has it: the names [ERROR_PACKET_FAULTY] and
    [ERROR_DATABASE_FULL] are both bound to 0xFE, so the codes of the named
    errors are not pairwise distinct; the status byte 0xFE resolves to
    [ERROR_PACKET_FAULTY], and [ERROR_DATABASE_FULL] is an alias and no
    member of its own. *)
Theorem FpError_shared_code :
  ~ (forall a b : FpError, value a = value b -> a = b) /\
  value ERROR_PACKET_FAULTY = 0xFE /\
  value ERROR_DATABASE_FULL = 0xFE /\
  by_value 0xFE = Some ERROR_PACKET_FAULTY /\
  ~ In ERROR_DATABASE_FULL (members (E := FpError)).
Proof.
  split; [| split; [| split; [| split]]]; try reflexivity.
  - intros Hinj.
    specialize (Hinj ERROR_PACKET_FAULTY ERROR_DATABASE_FULL eq_refl).
    discriminate Hinj.
  - vm_compute. intuition discriminate.
Qed.

(** * Further properties *)

(** ** Bytes and integers *)

Lemma byte_of_Z_of_byte (b : byte) : byte_of_Z (Z_of_byte b) = b.
Proof.
  unfold byte_of_Z, Z_of_byte. rewrite N2Z.id, Byte.of_to_N. reflexivity.
Qed.

Lemma int_from_bytes_range (data : list byte) :
  0 <= int_from_bytes data < 256 ^ Z.of_nat (length data).
Proof.
  induction data as [| b l IH] using rev_ind.
  - unfold int_from_bytes. simpl. lia.
  - rewrite int_from_bytes_snoc, length_app. cbn [length].
    rewrite Nat.add_1_r, Nat2Z.inj_succ, Z.pow_succ_r by lia.
    pose proof (Z_of_byte_range b). lia.
Qed.

Lemma be_digits_int_from_bytes (data : list byte) :
  be_digits (length data) (int_from_bytes data) = data.
Proof.
  induction data as [| b l IH] using rev_ind.
  - reflexivity.
  - rewrite int_from_bytes_snoc, length_app. cbn [length].
    rewrite Nat.add_1_r. cbn [be_digits].
    pose proof (Z_of_byte_range b) as Hb.
    rewrite Z.div_add_l by lia. rewrite (Z.div_small (Z_of_byte b)) by lia.
    rewrite Z.add_0_r, IH.
    rewrite Z.add_comm, Z.mod_add by lia. rewrite Z.mod_small by lia.
    rewrite byte_of_Z_of_byte. reflexivity.
Qed.

(** X1: a buffer written by [to_bytes] has the requested size and
    [from_bytes] reads the integer back. *)
Theorem to_bytes_from_bytes (v : Z) (size : nat) (bs : list byte) :
  to_bytes v size = Ok bs -> length bs = size /\ from_bytes bs = v.
Proof.
  intros Hok. apply to_bytes_Ok in Hok as [Hv ->].
  split; [apply be_digits_length |].
  apply int_from_bytes_be_digits. exact Hv.
Qed.

Lemma to_bytes_from_bytes_witness :
  length [x01; xc2; x00] = 3%nat /\ from_bytes [x01; xc2; x00] = 115200.
Proof.
  apply (to_bytes_from_bytes 115200 3). reflexivity.
Defined.

(** X2: writing the integer of a buffer back on as many bytes never raises
    and gives the buffer again. *)
Theorem from_bytes_to_bytes (data : list byte) :
  to_bytes (from_bytes data) (length data) = Ok data.
Proof.
  unfold from_bytes. rewrite to_bytes_fits by apply int_from_bytes_range.
  rewrite be_digits_int_from_bytes. reflexivity.
Qed.

(** X3: [from_bytes] is big-endian: the integer of a concatenation is the
    integer of the head shifted by the length of the tail, plus the integer
    of the tail; and a buffer of [n] bytes gives an integer below [256^n]. *)
Theorem from_bytes_app (a b : list byte) :
  from_bytes (a ++ b) = from_bytes a * 256 ^ Z.of_nat (length b) + from_bytes b /\
  0 <= from_bytes b < 256 ^ Z.of_nat (length b).
Proof.
  split; [| apply int_from_bytes_range].
  unfold from_bytes.
  induction b as [| x l IH] using rev_ind.
  - rewrite app_nil_r. unfold int_from_bytes at 3. simpl. lia.
  - rewrite app_assoc, !int_from_bytes_snoc, IH, length_app. cbn [length].
    rewrite Nat.add_1_r, Nat2Z.inj_succ, Z.pow_succ_r by lia. lia.
Qed.

(** Two buffers of one length with the same integer are equal. *)
Lemma from_bytes_inj (a b : list byte) :
  length a = length b -> from_bytes a = from_bytes b -> a = b.
Proof.
  unfold from_bytes. intros Hlen Hval.
  rewrite <- (be_digits_int_from_bytes a), <- (be_digits_int_from_bytes b).
  rewrite Hlen, Hval. reflexivity.
Qed.

(** ** Slices *)

Lemma firstn_plus {A : Type} (n m : nat) (l : list A) :
  firstn (n + m) l = firstn n l ++ firstn m (skipn n l).
Proof.
  revert l. induction n as [| n IH]; intros l.
  - reflexivity.
  - destruct l as [| x l]; cbn [Nat.add firstn skipn app].
    + rewrite firstn_nil. reflexivity.
    + rewrite IH. reflexivity.
Qed.

Lemma slice_length (a b : nat) (data : list byte) :
  (a <= b)%nat -> (b <= length data)%nat -> length (slice a b data) = (b - a)%nat.
Proof.
  intros Hab Hb. unfold slice. rewrite length_firstn, length_skipn. lia.
Qed.

Lemma slice_length_le (a b : nat) (data : list byte) :
  (length (slice a b data) <= b - a)%nat.
Proof.
  unfold slice. rewrite length_firstn. lia.
Qed.

Lemma slice_app (a b : nat) (data extra : list byte) :
  (a <= b)%nat -> (b <= length data)%nat ->
  slice a b (data ++ extra) = slice a b data.
Proof.
  intros Hab Hb. unfold slice.
  rewrite skipn_app, firstn_app, length_skipn.
  replace (a - length data)%nat with 0%nat by lia.
  replace (b - a - (length data - a))%nat with 0%nat by lia.
  cbn [skipn firstn]. apply app_nil_r.
Qed.

Lemma slice_join (a b c : nat) (data : list byte) :
  (a <= b)%nat -> (b <= c)%nat ->
  slice a b data ++ slice b c data = slice a c data.
Proof.
  intros Hab Hbc. unfold slice.
  replace (c - a)%nat with ((b - a) + (c - b))%nat by lia.
  rewrite firstn_plus, skipn_skipn.
  replace (b - a + a)%nat with b by lia. reflexivity.
Qed.

Lemma from_bytes_slice_range (a b : nat) (data : list byte) :
  0 <= from_bytes (slice a b data) < 256 ^ Z.of_nat (b - a).
Proof.
  pose proof (int_from_bytes_range (slice a b data)) as Hr.
  pose proof (slice_length_le a b data) as Hl.
  unfold from_bytes. split; [lia |].
  apply Z.lt_le_trans with (1 := proj2 Hr).
  apply Z.pow_le_mono_r; lia.
Qed.

(** ** Decoding the parameters block *)

Lemma land_low_nibble_range (s : Z) : 0 <= Z.land 0x0F s <= 15.
Proof.
  assert (Hmod : Z.land 0x0F s = s mod 16).
  { rewrite Z.land_comm. change 0x0F with (Z.ones 4).
    rewrite Z.land_ones by lia. reflexivity. }
  rewrite Hmod. pose proof (Z.mod_pos_bound s 16 ltac:(lia)). lia.
Qed.

Lemma deserialize_prefix (data extra : list byte) :
  (LENGTH <= length data)%nat ->
  deserialize (data ++ extra) = deserialize data.
Proof.
  unfold LENGTH. intros Hlen. unfold deserialize, LENGTH.
  destruct (Nat.ltb_spec (length (data ++ extra)) 16) as [Hshort | _];
    [rewrite length_app in Hshort; lia |].
  destruct (Nat.ltb_spec (length data) 16) as [Hshort | _]; [lia |].
  rewrite !slice_app by lia. reflexivity.
Qed.

(** X4: [deserialize] reads the first 16 bytes only: whatever follows them
    does not change its answer. *)
Theorem deserialize_trailing_bytes (data extra : list byte) :
  (16 <= length data)%nat ->
  deserialize (data ++ extra) = deserialize data /\
  deserialize data = deserialize (firstn 16 data).
Proof.
  intros Hlen. split; [apply deserialize_prefix; exact Hlen |].
  rewrite <- (firstn_skipn 16 data) at 1.
  apply deserialize_prefix. rewrite length_firstn. unfold LENGTH. lia.
Qed.

Lemma deserialize_trailing_bytes_witness :
  deserialize (buffer_status_ff ++ [x01; x02; x03]) = deserialize buffer_status_ff.
Proof.
  apply (deserialize_trailing_bytes buffer_status_ff [x01; x02; x03]).
  simpl. lia.
Defined.

(** X5: [deserialize] returns a record exactly on the buffers of 16 bytes or
    more whose security field is in 1..5, packet-size field in 0..3 and
    baud-rate field in 1..12; status, id, capacity and address are never a
    reason to refuse. *)
Theorem deserialize_Some_iff (data : list byte) :
  (exists p, deserialize data = Ok (Some p)) <->
  (16 <= length data)%nat /\
  1 <= from_bytes (slice 6 8 data) <= 5 /\
  0 <= from_bytes (slice 12 14 data) <= 3 /\
  1 <= from_bytes (slice 14 16 data) <= 12.
Proof.
  split.
  - intros [p Hp].
    destruct (deserialize_cases data)
      as [Hnone | [sec [pack [baud [Hlen [Vsec [Vpack [Vbaud _]]]]]]]].
    + rewrite Hnone in Hp. discriminate Hp.
    + rewrite <- Vsec, <- Vpack, <- Vbaud. unfold LENGTH in Hlen.
      pose proof (FpSecurity_value_range sec).
      pose proof (FpPacketSize_value_range pack).
      pose proof (FpBaudrate_value_range baud).
      repeat split; lia.
  - intros [Hlen [Hsec [Hpack Hbaud]]].
    apply FpSecurity_has_value in Hsec.
    apply FpPacketSize_has_value in Hpack.
    apply FpBaudrate_has_value in Hbaud.
    unfold deserialize, LENGTH.
    destruct (Nat.ltb_spec (length data) 16) as [Hshort | _]; [lia |].
    cbv zeta. rewrite Hsec, Hpack, Hbaud. cbn [negb].
    destruct (has_value_enum_call _ Hsec) as [sec [-> _]].
    destruct (has_value_enum_call _ Hpack) as [pack [-> _]].
    destruct (has_value_enum_call _ Hbaud) as [baud [-> _]].
    cbn [bind]. eexists. reflexivity.
Qed.

Lemma deserialize_Some_length (data : list byte) (p : FpSystemParameters) :
  deserialize data = Ok (Some p) -> (16 <= length data)%nat.
Proof.
  intros Hp.
  destruct (deserialize_cases data) as [Hnone | [sec [pack [baud [Hlen _]]]]].
  - rewrite Hnone in Hp. discriminate Hp.
  - exact Hlen.
Qed.

Lemma deserialize_fields (data : list byte) (p : FpSystemParameters) :
  deserialize data = Ok (Some p) ->
  status p = Z.land 0x0F (from_bytes (slice 0 2 data)) /\
  id p = from_bytes (slice 2 4 data) /\
  capacity p = from_bytes (slice 4 6 data) /\
  value (security p) = from_bytes (slice 6 8 data) /\
  address p = from_bytes (slice 8 12 data) /\
  value (packet p) = from_bytes (slice 12 14 data) /\
  value (baudrate p) = from_bytes (slice 14 16 data).
Proof.
  intros Hp.
  destruct (deserialize_cases data)
    as [Hnone | [sec [pack [baud [_ [Vsec [Vpack [Vbaud Hsome]]]]]]]].
  - rewrite Hnone in Hp. discriminate Hp.
  - rewrite Hsome in Hp. injection Hp as <-.
    repeat split; first [reflexivity | assumption].
Qed.

(** X6: a record returned by [deserialize] has its status in 0..15, its id
    and capacity in 0..0xFFFF and its address in 0..0xFFFFFFFF; its codes
    are the integers of the bytes 6 - 7, 12 - 13 and 14 - 15. *)
Theorem deserialize_ranges (data : list byte) (p : FpSystemParameters) :
  deserialize data = Ok (Some p) ->
  0 <= status p <= 0x0F /\
  0 <= id p <= 0xFFFF /\
  0 <= capacity p <= 0xFFFF /\
  0 <= address p <= 0xFFFFFFFF /\
  value (security p) = from_bytes (slice 6 8 data) /\
  value (packet p) = from_bytes (slice 12 14 data) /\
  value (baudrate p) = from_bytes (slice 14 16 data).
Proof.
  intros Hp.
  destruct (deserialize_fields data p Hp)
    as [Hst [Hid [Hcap [Hsec [Haddr [Hpack Hbaud]]]]]].
  pose proof (land_low_nibble_range (from_bytes (slice 0 2 data))) as R0.
  pose proof (from_bytes_slice_range 2 4 data) as R1.
  pose proof (from_bytes_slice_range 4 6 data) as R2.
  pose proof (from_bytes_slice_range 8 12 data) as R3.
  change (256 ^ Z.of_nat (4 - 2)) with 65536 in R1.
  change (256 ^ Z.of_nat (6 - 4)) with 65536 in R2.
  change (256 ^ Z.of_nat (12 - 8)) with 4294967296 in R3.
  rewrite <- Hst in R0. rewrite <- Hid in R1. rewrite <- Hcap in R2.
  rewrite <- Haddr in R3.
  repeat split; try assumption; lia.
Qed.

Lemma deserialize_ranges_witness :
  exists p, deserialize buffer_status_ff = Ok (Some p) /\
            0 <= status p <= 0x0F.
Proof.
  eexists. split; [reflexivity |].
  apply (deserialize_ranges buffer_status_ff). reflexivity.
Defined.

Lemma deserialize_documented_block_witness :
  exists bs,
    documented_block {| status := 0x0F; id := 0xFFFF; address := ADDRESS;
                        capacity := 1000; packet := PACKET_SIZE_256;
                        security := SECURITY_LVL5;
                        baudrate := BAUDRATE_115200 |} = Ok bs /\
    length bs = LENGTH /\
    deserialize bs =
      Ok (Some {| status := 0x0F; id := 0xFFFF; address := ADDRESS;
                  capacity := 1000; packet := PACKET_SIZE_256;
                  security := SECURITY_LVL5;
                  baudrate := BAUDRATE_115200 |}).
Proof.
  apply (deserialize_documented_block
           {| status := 0x0F; id := 0xFFFF; address := ADDRESS;
              capacity := 1000; packet := PACKET_SIZE_256;
              security := SECURITY_LVL5; baudrate := BAUDRATE_115200 |});
    simpl; unfold ADDRESS; lia.
Defined.

Lemma block_slices (data : list byte) :
  firstn 16 data =
  slice 0 2 data ++ slice 2 4 data ++ slice 4 6 data ++ slice 6 8 data ++
  slice 8 12 data ++ slice 12 14 data ++ slice 14 16 data.
Proof.
  rewrite (slice_join 12 14 16), (slice_join 8 12 16), (slice_join 6 8 16),
    (slice_join 4 6 16), (slice_join 2 4 16), (slice_join 0 2 16) by lia.
  reflexivity.
Qed.

Lemma slice_eq_of_int (a b : nat) (d1 d2 : list byte) :
  (a <= b)%nat -> (b <= length d1)%nat -> (b <= length d2)%nat ->
  from_bytes (slice a b d1) = from_bytes (slice a b d2) ->
  slice a b d1 = slice a b d2.
Proof.
  intros Hab H1 H2 Hv. apply from_bytes_inj; [| exact Hv].
  rewrite !slice_length by assumption. reflexivity.
Qed.

(** X8: two buffers that [deserialize] to the same record, and whose status
    fields have nothing above the low nibble, have the same first 16
    bytes. *)
Theorem deserialize_inj (d1 d2 : list byte) (p : FpSystemParameters) :
  from_bytes (slice 0 2 d1) <= 0x0F ->
  from_bytes (slice 0 2 d2) <= 0x0F ->
  deserialize d1 = Ok (Some p) ->
  deserialize d2 = Ok (Some p) ->
  firstn 16 d1 = firstn 16 d2.
Proof.
  intros S1 S2 H1 H2.
  pose proof (deserialize_Some_length d1 p H1) as L1.
  pose proof (deserialize_Some_length d2 p H2) as L2.
  destruct (deserialize_fields d1 p H1) as [A0 [A1 [A2 [A3 [A4 [A5 A6]]]]]].
  destruct (deserialize_fields d2 p H2) as [B0 [B1 [B2 [B3 [B4 [B5 B6]]]]]].
  pose proof (from_bytes_slice_range 0 2 d1) as R1.
  pose proof (from_bytes_slice_range 0 2 d2) as R2.
  rewrite land_low_nibble in A0 by lia. rewrite land_low_nibble in B0 by lia.
  rewrite !block_slices.
  rewrite (slice_eq_of_int 0 2 d1 d2), (slice_eq_of_int 2 4 d1 d2),
    (slice_eq_of_int 4 6 d1 d2), (slice_eq_of_int 6 8 d1 d2),
    (slice_eq_of_int 8 12 d1 d2), (slice_eq_of_int 12 14 d1 d2),
    (slice_eq_of_int 14 16 d1 d2) by (try lia; congruence).
  reflexivity.
Qed.

Lemma deserialize_inj_witness :
  firstn 16 ([x00; x03; x00; x2a; x01; x00; x00; x03;
              x00; x00; x00; x07; x00; x02; x00; x06] ++ [xaa]) =
  firstn 16 ([x00; x03; x00; x2a; x01; x00; x00; x03;
              x00; x00; x00; x07; x00; x02; x00; x06] ++ [x00; x01]).
Proof.
  eapply (deserialize_inj _ _ _).
  - vm_compute. discriminate.
  - vm_compute. discriminate.
  - reflexivity.
  - reflexivity.
Defined.

(** ** Encoding the parameters *)

Lemma FpSecurity_value_inj (a b : FpSecurity) : value a = value b -> a = b.
Proof. destruct a; destruct b; cbn; intros Hv; first [reflexivity | discriminate Hv]. Qed.

Lemma FpPacketSize_value_inj (a b : FpPacketSize) : value a = value b -> a = b.
Proof. destruct a; destruct b; cbn; intros Hv; first [reflexivity | discriminate Hv]. Qed.

Lemma FpBaudrate_value_inj (a b : FpBaudrate) : value a = value b -> a = b.
Proof. destruct a; destruct b; cbn; intros Hv; first [reflexivity | discriminate Hv]. Qed.

Lemma app_eq_length_inv {A : Type} (a a' b b' : list A) :
  length a = length a' -> a ++ b = a' ++ b' -> a = a' /\ b = b'.
Proof.
  revert a'. induction a as [| x a IH]; intros [| x' a'] Hlen Heq;
    try discriminate Hlen.
  - split; [reflexivity | exact Heq].
  - cbn in Hlen, Heq. injection Hlen as Hlen. injection Heq as -> Heq.
    destruct (IH a' Hlen Heq) as [-> ->]. split; reflexivity.
Qed.

Lemma be_digits_inj (n : nat) (x y : Z) :
  0 <= x < 256 ^ Z.of_nat n -> 0 <= y < 256 ^ Z.of_nat n ->
  be_digits n x = be_digits n y -> x = y.
Proof.
  intros Hx Hy Heq.
  rewrite <- (int_from_bytes_be_digits n x Hx), <- (int_from_bytes_be_digits n y Hy).
  rewrite Heq. reflexivity.
Qed.

(** X9: [serialize] returns a buffer exactly when status, id, capacity and
    address are all in 0..0xFFFF; whenever it raises, it raises an
    [OverflowError]. *)
Theorem serialize_Ok_iff (p : FpSystemParameters) :
  ((exists bs, serialize p = Ok bs) <->
   0 <= status p <= 0xFFFF /\ 0 <= id p <= 0xFFFF /\
   0 <= capacity p <= 0xFFFF /\ 0 <= address p <= 0xFFFF) /\
  (forall e, serialize p = Raise e -> exists msg, e = OverflowError msg).
Proof.
  split; [split |].
  - intros [bs Hs]. apply serialize_Ok in Hs as [Hr _]. lia.
  - intros [Hst [Hid [Hcap Haddr]]].
    pose proof (FpSecurity_value_range (security p)).
    pose proof (FpPacketSize_value_range (packet p)).
    pose proof (FpBaudrate_value_range (baudrate p)).
    unfold serialize.
    rewrite !to_bytes_fits by (change (256 ^ Z.of_nat 2) with 65536; lia).
    cbn [bind]. eexists. reflexivity.
  - intros e. unfold serialize.
    destruct (to_bytes (status p) 2) as [b0 | e0] eqn:H0; cbn [bind];
      [| intros He; injection He as <-; exact (to_bytes_overflow _ _ _ H0)].
    destruct (to_bytes (id p) 2) as [b1 | e1] eqn:H1; cbn [bind];
      [| intros He; injection He as <-; exact (to_bytes_overflow _ _ _ H1)].
    destruct (to_bytes (capacity p) 2) as [b2 | e2] eqn:H2; cbn [bind];
      [| intros He; injection He as <-; exact (to_bytes_overflow _ _ _ H2)].
    destruct (to_bytes (value (security p)) 2) as [b3 | e3] eqn:H3; cbn [bind];
      [| intros He; injection He as <-; exact (to_bytes_overflow _ _ _ H3)].
    destruct (to_bytes (address p) 2) as [b4 | e4] eqn:H4; cbn [bind];
      [| intros He; injection He as <-; exact (to_bytes_overflow _ _ _ H4)].
    destruct (to_bytes (value (packet p)) 2) as [b5 | e5] eqn:H5; cbn [bind];
      [| intros He; injection He as <-; exact (to_bytes_overflow _ _ _ H5)].
    destruct (to_bytes (value (baudrate p)) 2) as [b6 | e6] eqn:H6; cbn [bind];
      [| intros He; injection He as <-; exact (to_bytes_overflow _ _ _ H6)].
    intros He. discriminate He.
Qed.

(** X10: [serialize] loses nothing of what it accepts: two values with the
    same buffer are equal. *)
Theorem serialize_inj (p q : FpSystemParameters) (bs : list byte) :
  serialize p = Ok bs -> serialize q = Ok bs -> p = q.
Proof.
  intros Hp Hq.
  apply serialize_Ok in Hp as [[Rp0 [Rp1 [Rp2 Rp4]]] Ep].
  apply serialize_Ok in Hq as [[Rq0 [Rq1 [Rq2 Rq4]]] Eq].
  rewrite Ep in Eq. clear Ep.
  pose proof (FpSecurity_value_range (security p)).
  pose proof (FpSecurity_value_range (security q)).
  pose proof (FpPacketSize_value_range (packet p)).
  pose proof (FpPacketSize_value_range (packet q)).
  pose proof (FpBaudrate_value_range (baudrate p)).
  pose proof (FpBaudrate_value_range (baudrate q)).
  apply app_eq_length_inv in Eq as [E0 Eq]; [| rewrite !be_digits_length; reflexivity].
  apply app_eq_length_inv in Eq as [E1 Eq]; [| rewrite !be_digits_length; reflexivity].
  apply app_eq_length_inv in Eq as [E2 Eq]; [| rewrite !be_digits_length; reflexivity].
  apply app_eq_length_inv in Eq as [E3 Eq]; [| rewrite !be_digits_length; reflexivity].
  apply app_eq_length_inv in Eq as [E4 Eq]; [| rewrite !be_digits_length; reflexivity].
  apply app_eq_length_inv in Eq as [E5 E6]; [| rewrite !be_digits_length; reflexivity].
  apply be_digits_inj in E0, E1, E2, E3, E4, E5, E6;
    try (change (256 ^ Z.of_nat 2) with 65536; lia).
  apply FpSecurity_value_inj in E3.
  apply FpPacketSize_value_inj in E5.
  apply FpBaudrate_value_inj in E6.
  destruct p, q; cbn in *. subst. reflexivity.
Qed.

Lemma serialize_inj_witness :
  p0 = {| status := 0; id := 0; address := 0; capacity := 0;
          packet := PACKET_SIZE_32; security := SECURITY_LVL1;
          baudrate := BAUDRATE_9600 |}.
Proof.
  eapply (serialize_inj _ _ _); reflexivity.
Defined.

(** ** Integers accepted as baud rates and packet sizes *)

(** X11: [FpBaudrate.from_int] returns a code [m] exactly on the integer of
    the code itself and on the integers from the baud rate of [m] up to, not
    including, the next multiple of 9600; its only error is the
    unsupported-baud-rate one. *)
Theorem FpBaudrate_from_int_Ok_iff (v : Z) :
  (forall m : FpBaudrate,
     FpBaudrate_from_int v = Ok m <->
     v = value m \/
     FpBaudrate_to_int m <= v < FpBaudrate_to_int m + 9600) /\
  (forall e, FpBaudrate_from_int v = Raise e ->
             e = ValueError (not_supported_by_sensor v)).
Proof.
  pose proof (Z.div_mod v 9600 ltac:(lia)) as Hdm.
  pose proof (Z.mod_pos_bound v 9600 ltac:(lia)) as Hmod.
  unfold FpBaudrate_from_int, FpBaudrate_to_int. cbv zeta.
  destruct (has_value (E := FpBaudrate) v) eqn:Hv.
  - destruct (has_value_enum_call v Hv) as [m' [-> Hm']].
    apply FpBaudrate_has_value in Hv.
    split; [| intros e He; discriminate He].
    intros m. pose proof (FpBaudrate_value_range m) as Rm. split.
    + intros Hok. injection Hok as <-. left. symmetry. exact Hm'.
    + intros [Heq | Hrange]; [| lia].
      f_equal. apply FpBaudrate_value_inj. lia.
  - apply (false_iff_not _ _ (FpBaudrate_has_value v)) in Hv.
    destruct (has_value (E := FpBaudrate) (v / 9600)) eqn:Hq.
    + destruct (has_value_enum_call _ Hq) as [m' [-> Hm']].
      apply FpBaudrate_has_value in Hq.
      split; [| intros e He; discriminate He].
      intros m. pose proof (FpBaudrate_value_range m) as Rm. split.
      * intros Hok. injection Hok as <-. right. lia.
      * intros [Heq | Hrange]; [lia |].
        f_equal. apply FpBaudrate_value_inj. lia.
    + apply (false_iff_not _ _ (FpBaudrate_has_value _)) in Hq.
      split; [| intros e He; injection He as <-; reflexivity].
      intros m. pose proof (FpBaudrate_value_range m) as Rm. split.
      * intros Hok. discriminate Hok.
      * intros [Heq | Hrange]; lia.
Qed.

(** The outcome of [FpPacketSize.from_int], by the region of its argument. *)
Lemma FpPacketSize_from_int_regions (v : Z) :
  (exists m, FpPacketSize_from_int v = Ok m /\
             (v = value m \/
              FpPacketSize_to_int m <= v < 2 * FpPacketSize_to_int m)) \/
  (FpPacketSize_from_int v = Raise (ValueError math_domain_error) /\
   (v < 0 \/ 4 <= v <= 31)) \/
  (FpPacketSize_from_int v = Raise (ValueError (not_compatible_packet_size v)) /\
   512 <= v).
Proof.
  destruct (Z_lt_le_dec v 512) as [Hlt | Hge];
    [| right; right; split; [apply FpPacketSize_from_int_large |]; exact Hge].
  unfold FpPacketSize_from_int.
  destruct (has_value (E := FpPacketSize) v) eqn:Hv.
  - left. destruct (has_value_enum_call v Hv) as [m [-> Hm]].
    exists m. split; [reflexivity |]. left. symmetry. exact Hm.
  - apply (false_iff_not _ _ (FpPacketSize_has_value v)) in Hv.
    rewrite Z.shiftr_div_pow2 by lia. change (2 ^ 5) with 32.
    pose proof (Z.div_mod v 32 ltac:(lia)) as Hdm.
    pose proof (Z.mod_pos_bound v 32 ltac:(lia)) as Hmod.
    unfold int_log2.
    destruct (Z.leb_spec (v / 32) 0) as [Hle | Hpos]; cbn [bind].
    + right. left. split; [reflexivity | lia].
    + left.
      pose proof (Z.log2_spec (v / 32) Hpos) as [Hlo Hhi].
      pose proof (Z.log2_nonneg (v / 32)) as Hnn.
      assert (Hlog : Z.log2 (v / 32) <= 3).
      { apply Z.lt_succ_r. apply Z.log2_lt_pow2; [exact Hpos |].
        change (2 ^ Z.succ 3) with 16. lia. }
      assert (Hcode : has_value (E := FpPacketSize) (Z.log2 (v / 32)) = true)
        by (apply FpPacketSize_has_value; lia).
      rewrite Hcode.
      destruct (has_value_enum_call _ Hcode) as [m [-> Hm]].
      exists m. split; [reflexivity |]. right.
      unfold FpPacketSize_to_int. rewrite Hm.
      rewrite Z.pow_succ_r in Hhi by lia. lia.
Qed.

(** X12: whenever [FpPacketSize.from_int] returns a code [m] for an integer
    that is not itself the code, the integer lies from the size of [m] up
    to, not including, twice that size; and every such integer, as every
    code, gives [m]. *)
Theorem FpPacketSize_from_int_Ok_iff (v : Z) (m : FpPacketSize) :
  FpPacketSize_from_int v = Ok m <->
  v = value m \/ FpPacketSize_to_int m <= v < 2 * FpPacketSize_to_int m.
Proof.
  destruct (FpPacketSize_from_int_regions v)
    as [[m' [Hok Hwhere]] | [[Herr Hwhere] | [Herr Hwhere]]].
  - rewrite Hok. split.
    + intros Heq. injection Heq as <-. exact Hwhere.
    + intros Hm. f_equal.
      pose proof (FpPacketSize_value_range m).
      pose proof (FpPacketSize_value_range m').
      unfold FpPacketSize_to_int in *.
      destruct m; destruct m'; cbn in Hwhere, Hm |- *;
        first [reflexivity | lia].
  - rewrite Herr. split; [intros Heq; discriminate Heq |].
    pose proof (FpPacketSize_value_range m).
    unfold FpPacketSize_to_int. destruct m; cbn; lia.
  - rewrite Herr. split; [intros Heq; discriminate Heq |].
    pose proof (FpPacketSize_value_range m).
    unfold FpPacketSize_to_int. destruct m; cbn; lia.
Qed.

(** X13: [FpPacketSize.from_int] fails with the domain error of [log2]
    exactly on the negative integers and on 4..31, and with the
    unsupported-packet-size error exactly from 512 on; it raises nothing
    else. *)
Theorem FpPacketSize_from_int_errors (v : Z) :
  (FpPacketSize_from_int v = Raise (ValueError math_domain_error) <->
   v < 0 \/ 4 <= v <= 31) /\
  (FpPacketSize_from_int v = Raise (ValueError (not_compatible_packet_size v)) <->
   512 <= v) /\
  (forall e, FpPacketSize_from_int v = Raise e ->
             e = ValueError math_domain_error \/
             e = ValueError (not_compatible_packet_size v)).
Proof.
  destruct (FpPacketSize_from_int_regions v)
    as [[m [Hok Hwhere]] | [[Herr Hwhere] | [Herr Hwhere]]].
  - rewrite Hok.
    pose proof (FpPacketSize_value_range m).
    unfold FpPacketSize_to_int in Hwhere.
    split; [| split].
    + split; [intros Heq; discriminate Heq |].
      destruct m; cbn in Hwhere; lia.
    + split; [intros Heq; discriminate Heq |].
      destruct m; cbn in Hwhere; lia.
    + intros e Heq. discriminate Heq.
  - rewrite Herr. split; [| split].
    + split; [intros _; exact Hwhere | reflexivity].
    + split; [intros Heq; discriminate Heq | lia].
    + intros e Heq. injection Heq as <-. left. reflexivity.
  - rewrite Herr. split; [| split].
    + split; [intros Heq; discriminate Heq | lia].
    + split; [intros _; exact Hwhere | reflexivity].
    + intros e Heq. injection Heq as <-. right. reflexivity.
Qed.

(** ** Codes of the protocol *)

(** X14: packet IDs, command IDs, buffer IDs and parameter IDs have no
    aliases: the class called on the integer of a member gives that
    member. *)
Theorem protocol_codes_lookup :
  (forall c : FpCommand, enum_call (value c) = Ok c) /\
  (forall p : FpPID, enum_call (value p) = Ok p) /\
  (forall b : FpBufferID, enum_call (value b) = Ok b) /\
  (forall i : FpParameterID, enum_call (value i) = Ok i).
Proof.
  repeat split; intros x; destruct x; reflexivity.
Qed.

(** X15: [FpError] has 30 members; called on the integer of any name but
    [ERROR_DATABASE_FULL], the class gives that name. *)
Theorem FpError_lookup (e : FpError) :
  e <> ERROR_DATABASE_FULL ->
  length (members (E := FpError)) = 30%nat /\
  has_value (E := FpError) (value e) = true /\
  enum_call (value e) = Ok e.
Proof.
  intros He. split; [reflexivity |].
  destruct e; first [split; reflexivity | contradiction He; reflexivity].
Qed.

Lemma FpError_lookup_witness :
  enum_call (value ERROR_TIMEOUT) = Ok ERROR_TIMEOUT.
Proof.
  apply (FpError_lookup ERROR_TIMEOUT). discriminate.
Defined.

(** X16: [FpParameterID.get_type] never raises: every parameter has its
    class, and different parameters have different classes. *)
Theorem get_type_total (a : FpParameterID) :
  (exists t, get_type a = Returns t) /\
  (forall b, get_type a = get_type b -> a = b).
Proof.
  split.
  - destruct a; eexists; reflexivity.
  - intros b. destruct a; destruct b; cbn; intros Ht;
      first [reflexivity | discriminate Ht].
Qed.

(** ** The enrollment example *)

(** What the loop keeps: it prints retry lines only, [tries] stays in 0..2,
    the buffer never goes back to [BUFFER_1], the loop is left by [break]
    with [BUFFER_2] only, and it raises nothing but the three exceptions of
    [loop_exception]. *)
Lemma enroll_loop_inv (passes : list Pass) :
  forall (tries : Z) (buffer : FpBufferID),
    0 <= tries <= 2 ->
    Forall retry_line (fst (enroll_loop tries buffer passes)) /\
    match snd (enroll_loop tries buffer passes) with
    | Waiting t b => 0 <= t <= 2 /\ (buffer = BUFFER_2 -> b = BUFFER_2)
    | Break b => b = BUFFER_2
    | Raised l => loop_exception l
    end.
Proof.
  induction passes as [| r rest IH]; intros tries buffer Ht.
  - cbn. split; [constructor | split; [exact Ht | intros Hb; exact Hb]].
  - cbn [enroll_loop].
    destruct (captured r); cbn [negb];
      [| cbn; split; [constructor | right; right; reflexivity]].
    destruct (image_convert r) as [recv |];
      [| cbn; split; [constructor | right; right; reflexivity]].
    destruct (succ recv); cbn [negb].
    + cbv zeta. destruct buffer.
      * destruct (match_1_n r) as [rm |];
          [| cbn; split; [constructor | right; right; reflexivity]].
        destruct (Z.eqb_spec (index rm) (-1)) as [Hidx | Hidx]; cbn [negb].
        -- destruct (IH 0 BUFFER_2 ltac:(lia)) as [Hout Hexit].
           split; [exact Hout |].
           destruct (snd (enroll_loop 0 BUFFER_2 rest)) as [t b | b | l].
           ++ destruct Hexit as [Hr Hb]. split; [exact Hr |].
              intros Hbuf. discriminate Hbuf.
           ++ exact Hexit.
           ++ exact Hexit.
        -- cbn. split; [constructor |]. right. left.
           exists (index rm). split; [reflexivity | exact Hidx].
      * destruct (match_1_1 r) as [rm |];
          [| cbn; split; [constructor | right; right; reflexivity]].
        destruct (succ (match_set rm)); cbn [negb].
        -- cbn. split; [constructor | reflexivity].
        -- change (3 <=? 0 + 1) with false. cbv iota.
           destruct (IH (0 + 1) BUFFER_2 ltac:(lia)) as [Hout Hexit].
           cbn [print fst snd]. split.
           ++ constructor; [right; reflexivity | exact Hout].
           ++ exact Hexit.
    + cbv zeta. destruct (Z.leb_spec 3 (tries + 1)) as [Hmax | Hless].
      * cbn. split; [constructor |]. left. exists (code recv). reflexivity.
      * destruct (IH (tries + 1) buffer ltac:(lia)) as [Hout Hexit].
        cbn [print fst snd]. split.
        -- constructor; [left; exists (code recv); reflexivity | exact Hout].
        -- exact Hexit.
Qed.

(** X17: the example never raises and never prints 'Fingers didnt match
    several times': a mismatch always follows a good conversion, which sets
    [tries] back to 0, so the count of the mismatch branch stops at 1. *)
Theorem example_never_no_match (sdk : Sdk) :
  ~ In no_match (printed_lines (example sdk)) /\
  forall tries buffer ps,
    snd (enroll_loop tries buffer ps) <> Raised no_match.
Proof.
  assert (Hloop : forall ps tries buffer,
             ~ In no_match (fst (enroll_loop tries buffer ps)) /\
             snd (enroll_loop tries buffer ps) <> Raised no_match).
  { induction ps as [| r rest IH]; intros tries buffer.
    - cbn. split; [intros [] | discriminate].
    - cbn [enroll_loop].
      destruct (captured r); cbn [negb];
        [| cbn; split; [intros [] | discriminate]].
      destruct (image_convert r) as [recv |];
        [| cbn; split; [intros [] | discriminate]].
      destruct (succ recv); cbn [negb]; cbv zeta.
      + destruct buffer.
        * destruct (match_1_n r) as [rm |];
            [| cbn; split; [intros [] | discriminate]].
          destruct (negb (index rm =? -1));
            [cbn; split; [intros [] | discriminate] | apply IH].
        * destruct (match_1_1 r) as [rm |];
            [| cbn; split; [intros [] | discriminate]].
          destruct (succ (match_set rm)); cbn [negb];
            [cbn; split; [intros [] | discriminate] |].
          change (3 <=? 0 + 1) with false. cbv iota.
          destruct (IH (0 + 1) BUFFER_2) as [Hout Hexit].
          cbn [print fst snd]. split; [| exact Hexit].
          intros [Hl | Hin]; [discriminate Hl | exact (Hout Hin)].
      + destruct (3 <=? tries + 1).
        * cbn. split; [intros [] | discriminate].
        * destruct (IH (tries + 1) buffer) as [Hout Hexit].
          cbn [print fst snd]. split; [| exact Hexit].
          intros [Hl | Hin]; [discriminate Hl | exact (Hout Hin)]. }
  split; [| intros tries buffer ps; apply Hloop].
  unfold example.
  destruct (password_verify sdk) as [recv |];
    [| cbn; intros [Hl | []]; discriminate Hl].
  destruct (succ recv); cbn [negb];
    [| cbn; intros [Hl | []]; discriminate Hl].
  destruct (backlight sdk); cbn [negb];
    [| cbn; intros [Hl | []]; discriminate Hl].
  destruct (Hloop (passes sdk) 0 BUFFER_1) as [Hout Hexit].
  destruct (enroll_loop 0 BUFFER_1 (passes sdk)) as [out [t b | b | l]];
    cbn [fst snd printed_lines] in *.
  - exact Hout.
  - intros Hin. apply in_app_or in Hin as [Hin | [Hl | []]];
      [exact (Hout Hin) |].
    unfold enroll_store in Hl.
    destruct (template_create sdk) as [rc |]; [| discriminate Hl].
    destruct (succ rc); cbn [negb] in Hl; [| discriminate Hl].
    destruct (template_save sdk b) as [rs |]; [| discriminate Hl].
    destruct (succ (value_set rs)); cbn [negb] in Hl; discriminate Hl.
  - intros Hin. apply in_app_or in Hin as [Hin | [Hl | []]];
      [exact (Hout Hin) |].
    apply Hexit. rewrite Hl. reflexivity.
Qed.

(** X18: the example stores the template from [BUFFER_2] only: what
    [template_save] would answer for [BUFFER_1] has no effect on the run. *)
Theorem example_saves_buffer_2 (sdk : Sdk) :
  (forall out b, enroll_loop 0 BUFFER_1 (passes sdk) = (out, Break b) ->
                 b = BUFFER_2) /\
  example sdk =
  example {| password_verify := password_verify sdk;
             backlight := backlight sdk;
             passes := passes sdk;
             template_create := template_create sdk;
             template_save := fun _ => template_save sdk BUFFER_2 |}.
Proof.
  pose proof (enroll_loop_inv (passes sdk) 0 BUFFER_1 ltac:(lia)) as [_ Hexit].
  split.
  - intros out b Hloop. rewrite Hloop in Hexit. exact Hexit.
  - unfold example. cbn [password_verify backlight passes].
    destruct (password_verify sdk) as [recv |]; [| reflexivity].
    destruct (succ recv); cbn [negb]; [| reflexivity].
    destruct (backlight sdk); cbn [negb]; [| reflexivity].
    destruct (enroll_loop 0 BUFFER_1 (passes sdk)) as [out [t b | b | l]];
      try reflexivity.
    cbn [snd] in Hexit. subst b. reflexivity.
Qed.

(** X19: while the example waits in its loop, [tries] is 0, 1 or 2; and once
    the loop works on [BUFFER_2] it never returns to [BUFFER_1]. *)
Theorem enroll_loop_waiting (ps : list Pass) (tries : Z) (buffer : FpBufferID)
    (out : list Line) (t : Z) (b : FpBufferID) :
  0 <= tries <= 2 ->
  enroll_loop tries buffer ps = (out, Waiting t b) ->
  0 <= t <= 2 /\ (buffer = BUFFER_2 -> b = BUFFER_2).
Proof.
  intros Ht Hloop.
  pose proof (enroll_loop_inv ps tries buffer Ht) as [_ Hexit].
  rewrite Hloop in Hexit. exact Hexit.
Qed.

Lemma enroll_loop_waiting_witness :
  enroll_loop 0 BUFFER_1 [pass_first; pass_messy] =
    ([convert_try_again ERROR_IMAGE_MESSY], Waiting 1 BUFFER_2) /\
  0 <= 1 <= 2.
Proof.
  split; [reflexivity |].
  apply (enroll_loop_waiting [pass_first; pass_messy] 0 BUFFER_1
           [convert_try_again ERROR_IMAGE_MESSY] 1 BUFFER_2);
    [lia | reflexivity].
Defined.

(** X20: failed conversions in a row add up in [tries]: from [tries] at the
    head of the loop, fewer than [3 - tries] of them leave the loop waiting
    with the buffer unchanged, and [3 - tries] of them or more raise
    'Unable to get a good image of the fingerprint'. *)
Theorem enroll_loop_failed_conversions (ps : list Pass) :
  forall (tries : Z) (buffer : FpBufferID),
    Forall convert_fails ps ->
    (Z.of_nat (length ps) < 3 - tries ->
     snd (enroll_loop tries buffer ps) =
       Waiting (tries + Z.of_nat (length ps)) buffer) /\
    (3 - tries <= Z.of_nat (length ps) -> (0 < length ps)%nat ->
     exists c, snd (enroll_loop tries buffer ps) = Raised (bad_image c)).
Proof.
  induction ps as [| r rest IH]; intros tries buffer Hall.
  - cbn. split; [intros _; f_equal; lia | intros _ Hpos; lia].
  - inversion Hall as [| r' rest' [Hcap [recv [Hconv Hsucc]]] Hrest]; subst.
    cbn [enroll_loop]. rewrite Hcap, Hconv, Hsucc. cbn [negb]. cbv zeta.
    cbn [length]. rewrite Nat2Z.inj_succ.
    destruct (Z.leb_spec 3 (tries + 1)) as [Hmax | Hless].
    + split; [intros Hfew; lia |].
      intros _ _. exists (code recv). reflexivity.
    + destruct (IH (tries + 1) buffer Hrest) as [Hwait Hraise].
      cbn [print snd]. split.
      * intros Hfew. rewrite Hwait by lia. f_equal. lia.
      * intros Hmany _. apply Hraise; [lia |].
        destruct rest; [cbn [length Z.of_nat] in Hmany; lia | cbn [length]; lia].
Qed.

Lemma enroll_loop_failed_conversions_witness :
  exists c,
    snd (enroll_loop 0 BUFFER_1 [pass_messy; pass_messy; pass_messy]) =
      Raised (bad_image c).
Proof.
  apply (enroll_loop_failed_conversions [pass_messy; pass_messy; pass_messy]
           0 BUFFER_1).
  - repeat constructor; eexists; split; reflexivity.
  - simpl. lia.
  - simpl. lia.
Defined.

(** X21: the counter is shared by the two retry branches: after a mismatch
    of the fingers, which leaves [tries] at 1, two failed conversions are
    enough to raise 'Unable to get a good image of the fingerprint'. *)
Theorem enroll_loop_mismatch_then_failures
    (tries : Z) (r r1 r2 : Pass) (rest : list Pass)
    (rc rc1 rc2 : FpResponseSet) (rm : FpResponseMatch) :
  captured r = true -> image_convert r = Some rc -> succ rc = true ->
  match_1_1 r = Some rm -> succ (match_set rm) = false ->
  captured r1 = true -> image_convert r1 = Some rc1 -> succ rc1 = false ->
  captured r2 = true -> image_convert r2 = Some rc2 -> succ rc2 = false ->
  enroll_loop tries BUFFER_2 (r :: r1 :: r2 :: rest) =
    ([no_match_try_again; convert_try_again (code rc1)],
     Raised (bad_image (code rc2))).
Proof.
  intros Hc Hi Hs Hm Hms Hc1 Hi1 Hs1 Hc2 Hi2 Hs2.
  cbn [enroll_loop].
  rewrite Hc, Hi, Hs, Hm, Hms, Hc1, Hi1, Hs1, Hc2, Hi2, Hs2.
  reflexivity.
Qed.

Lemma enroll_loop_mismatch_then_failures_witness :
  enroll_loop 0 BUFFER_2 [pass_mismatch; pass_messy; pass_messy; pass_second] =
    ([no_match_try_again; convert_try_again ERROR_IMAGE_MESSY],
     Raised (bad_image ERROR_IMAGE_MESSY)).
Proof.
  apply (enroll_loop_mismatch_then_failures 0 pass_mismatch pass_messy
           pass_messy [pass_second]
           reply_ok {| succ := false; code := ERROR_IMAGE_MESSY |}
           {| succ := false; code := ERROR_IMAGE_MESSY |}
           {| match_set := {| succ := false; code := ERROR_FINGER_MISMATCH |};
              index := 0; score := 0 |}); reflexivity.
Defined.

(** From [BUFFER_1] the loop cannot be left by [break] in fewer than two
    passes. *)
Lemma enroll_loop_break_two_passes (ps : list Pass) (tries : Z) (b : FpBufferID) :
  snd (enroll_loop tries BUFFER_1 ps) = Break b -> (2 <= length ps)%nat.
Proof.
  revert tries. induction ps as [| r rest IH]; intros tries.
  - cbn. intros Hb. discriminate Hb.
  - cbn [enroll_loop].
    destruct (captured r); cbn [negb]; [| cbn; intros Hb; discriminate Hb].
    destruct (image_convert r) as [recv |]; [| cbn; intros Hb; discriminate Hb].
    destruct (succ recv); cbn [negb]; cbv zeta.
    + destruct (match_1_n r) as [rm |]; [| cbn; intros Hb; discriminate Hb].
      destruct (negb (index rm =? -1)); [cbn; intros Hb; discriminate Hb |].
      destruct rest as [| r' rest'].
      * cbn. intros Hb. discriminate Hb.
      * intros _. cbn [length]. lia.
    + destruct (3 <=? tries + 1); [cbn; intros Hb; discriminate Hb |].
      cbn [print snd]. intros Hb. apply IH in Hb. cbn [length]. lia.
Qed.

(** X22: the example prints 'Fingerprint stored successfully' only after the
    password was verified, at least two passes of the loop were made, the
    template was created and [template_save] on [BUFFER_2] succeeded; the
    index printed is the value of that reply. *)
Theorem example_stored (sdk : Sdk) (v : ResponseValue) :
  In (stored v) (printed_lines (example sdk)) ->
  (exists rv, password_verify sdk = Some rv /\ succ rv = true) /\
  (2 <= length (passes sdk))%nat /\
  (exists rc, template_create sdk = Some rc /\ succ rc = true) /\
  (exists rs, template_save sdk BUFFER_2 = Some rs /\
              succ (value_set rs) = true /\ response_value rs = v).
Proof.
  unfold example.
  destruct (password_verify sdk) as [rv |];
    [| cbn; intros [Hl | []]; discriminate Hl].
  destruct (succ rv) eqn:Hrv; cbn [negb];
    [| cbn; intros [Hl | []]; discriminate Hl].
  destruct (backlight sdk); cbn [negb];
    [| cbn; intros [Hl | []]; discriminate Hl].
  pose proof (enroll_loop_inv (passes sdk) 0 BUFFER_1 ltac:(lia)) as [Hout Hexit].
  pose proof (enroll_loop_break_two_passes (passes sdk) 0) as Htwo.
  assert (Hretry : forall out, Forall retry_line out -> ~ In (stored v) out).
  { intros out Hall Hin. rewrite Forall_forall in Hall.
    destruct (Hall _ Hin) as [[c Hc] | Hc]; discriminate Hc. }
  destruct (enroll_loop 0 BUFFER_1 (passes sdk)) as [out [t b | b | l]];
    cbn [fst snd printed_lines] in *.
  - intros Hin. exfalso. exact (Hretry out Hout Hin).
  - intros Hin. apply in_app_or in Hin as [Hin | [Hl | []]];
      [exfalso; exact (Hretry out Hout Hin) |].
    subst b. unfold enroll_store in Hl.
    destruct (template_create sdk) as [rc |]; [| discriminate Hl].
    destruct (succ rc) eqn:Hrc; cbn [negb] in Hl; [| discriminate Hl].
    destruct (template_save sdk BUFFER_2) as [rs |]; [| discriminate Hl].
    destruct (succ (value_set rs)) eqn:Hrs; cbn [negb] in Hl; [| discriminate Hl].
    injection Hl as Hv.
    split; [exists rv; split; [reflexivity | exact Hrv] |].
    split; [apply (Htwo BUFFER_2); reflexivity |].
    split; [exists rc; split; [reflexivity | exact Hrc] |].
    exists rs. repeat split; assumption.
  - intros Hin. apply in_app_or in Hin as [Hin | [Hl | []]];
      [exfalso; exact (Hretry out Hout Hin) |].
    exfalso. subst l.
    destruct Hexit as [[c Hc] | [[i [Hc _]] | Hc]]; discriminate Hc.
Qed.

Lemma example_stored_witness :
  example sdk_enrolls =
    Stopped [convert_try_again ERROR_IMAGE_MESSY; stored (value_int 7)] /\
  (2 <= length (passes sdk_enrolls))%nat.
Proof.
  split; [reflexivity |].
  apply (example_stored sdk_enrolls (value_int 7)).
  simpl. right. left. reflexivity.
Defined.
